(** * BinMate backend (app.py): a shallow embedding of the Flask views

    The repository is one Python module, [app.py]: a Flask application with
    an in-memory ledger ([user_data]), a price table
    ([marketplace_items_db]), read views, the redemption view and two views
    that proxy a request to a remote generative-language service.

    The embedding follows the module top to bottom.  Python values decoded
    from JSON are the type [json]; the exceptions the views can meet are the
    type [exn]; a view is a computation in the monad [py], which threads the
    process state (the ledger and a log of the outbound [requests.post]
    calls) and may raise.  What the module takes from its surroundings is a
    parameter of the view: the decoded request body, the value of
    [os.getenv('GEMINI_API_KEY')] and the answer of [requests.post]. *)

From Stdlib Require Import ZArith Ascii String List Sorted Floats DecimalString.
From stdpp Require Import base option gmap strings list.

Set Warnings "-register-all".
Local Open Scope Z_scope.
Local Open Scope string_scope.

(** ** Python values *)

(** A value produced by the JSON decoder ([request.json],
    [response.json()]) or built by a view and handed to [jsonify].  An
    object is the decoded [dict] as an association list with distinct
    keys, in insertion order. *)
Inductive json : Type :=
| JNull
| JBool (b : bool)
| JInt (n : Z)
| JFloat (x : float)
| JStr (s : string)
| JArr (xs : list json)
| JObj (kvs : list (string * json)).

(** The exception classes that occur in the module.  [RequestException]
    carries [e.response]: [None], or the status code of the response the
    exception holds.  [HTTPException] is what Flask's [request.json]
    raises for a body that is not JSON. *)
Inductive exn : Type :=
| KeyError
| IndexError
| TypeError
| AttributeError
| HTTPException
| RequestException (response : option Z).

Inductive result (A : Type) : Type :=
| Return (a : A)
| Raise (e : exn).
Arguments Return {A} a.
Arguments Raise {A} e.

(** The double quote character, for the one message that contains it. *)
Definition dq : string := String "034"%char "".

(** [str(n)] for an [int]. *)
Definition str_int (n : Z) : string := NilZero.string_of_int (Z.to_int n).

(** Truth value of a decoded value, as [not v] and [if v] test it. *)
Definition truthy (v : json) : bool :=
  match v with
  | JNull => false
  | JBool b => b
  | JInt n => negb (n =? 0)%Z
  | JFloat x => negb (PrimFloat.eqb x 0%float)
  | JStr s => match s with EmptyString => false | String _ _ => true end
  | JArr xs => match xs with [] => false | _ :: _ => true end
  | JObj kvs => match kvs with [] => false | _ :: _ => true end
  end.

(** Truth value of what [os.getenv] returns: [None] or a [str]. *)
Definition truthy_env (v : option string) : bool :=
  match v with
  | None => false
  | Some s => truthy (JStr s)
  end.

(** Lookup of a key in a decoded [dict]. *)
Fixpoint dict_lookup (kvs : list (string * json)) (k : string) : option json :=
  match kvs with
  | [] => None
  | (k', v) :: rest => if String.eqb k' k then Some v else dict_lookup rest k
  end.

(** ** The process state and the monad of views *)

(** [user_data]: the dict with the keys 'name' and 'points'. *)
Record UserAccount : Type := mkUser { name : string; points : Z }.

(** One outbound call [requests.post(api_url, json=payload)]. *)
Record call : Type := mkCall { call_url : string; call_json : json }.

(** The state a view runs in: the module global [user_data], and the
    calls of [requests.post] made so far, oldest first. *)
Record world : Type := mkWorld { user_data : UserAccount; outbox : list call }.

Definition py (A : Type) : Type := world → result A * world.

#[export] Instance py_ret : MRet py := λ A a w, (Return a, w).

#[export] Instance py_bind : MBind py := λ A B f m w,
  match m w with
  | (Return a, w') => f a w'
  | (Raise e, w') => (Raise e, w')
  end.

Definition raise {A : Type} (e : exn) : py A := λ w, (Raise e, w).

(** [try: body except ...: handler]: the handler runs on the exception the
    body raised; what the handler raises leaves the statement. *)
Definition try_except {A : Type} (body : py A) (handler : exn → py A) : py A :=
  λ w, match body w with
       | (Return a, w') => (Return a, w')
       | (Raise e, w') => handler e w'
       end.

Definition read_user_data : py UserAccount := λ w, (Return (user_data w), w).

Definition write_points (p : Z) : py unit := λ w,
  (Return tt, mkWorld (mkUser (name (user_data w)) p) (outbox w)).

(** ** Operations on values that may raise *)

(** [d.get(k, default)]: only a [dict] has the method. *)
Definition py_get (d : json) (k : string) (dflt : json) : py json :=
  match d with
  | JObj kvs => mret (default dflt (dict_lookup kvs k))
  | _ => raise AttributeError
  end.

(** [d[k]] for a string key [k]: a [dict] without the key raises
    [KeyError]; a list or a string wants an integer index, and the other
    values cannot be subscripted. *)
Definition py_item (d : json) (k : string) : py json :=
  match d with
  | JObj kvs =>
      match dict_lookup kvs k with
      | Some v => mret v
      | None => raise KeyError
      end
  | _ => raise TypeError
  end.

(** [v[0]]: the first element of a list or the first character of a
    string, [IndexError] when there is none; a [dict] is asked for the key
    [0], which a decoded object never has (its keys are strings). *)
Definition py_first (v : json) : py json :=
  match v with
  | JArr [] => raise IndexError
  | JArr (x :: _) => mret x
  | JStr EmptyString => raise IndexError
  | JStr (String c _) => mret (JStr (String c EmptyString))
  | JObj _ => raise KeyError
  | _ => raise TypeError
  end.

(** [k in d] for a [dict] [d] with string keys: lists and dicts cannot be
    hashed; any other value is hashed and compared with the keys. *)
Definition py_in {V : Type} (k : json) (d : gmap string V) : py bool :=
  match k with
  | JArr _ | JObj _ => raise TypeError
  | JStr s => mret (bool_decide (is_Some (d !! s)))
  | _ => mret false
  end.

(** [d[k]] for a [dict] [d] with string keys and an arbitrary key. *)
Definition py_lookup {V : Type} (d : gmap string V) (k : json) : py V :=
  match k with
  | JArr _ | JObj _ => raise TypeError
  | JStr s =>
      match d !! s with
      | Some v => mret v
      | None => raise KeyError
      end
  | _ => raise KeyError
  end.

(** ** Flask *)

(** What a view returns: [jsonify(body)] alone has status 200, the pair
    [jsonify(body), status] has the status given. *)
Record response : Type := mkResponse { status : Z; body : json }.

Definition jsonify (v : json) : response := mkResponse 200 v.
Definition jsonify_status (v : json) (st : Z) : response := mkResponse st v.

(** [request.json]: the decoded body, or the exception Flask raises when
    the request carries no JSON ([None] here).  A failure inside the
    decoder itself (deeply nested input) is not told apart from it: the
    proxy views catch both alike, and the redemption view lets both
    leave before it reads or writes the ledger. *)
Definition flask_request_json (request_json : option json) : py json :=
  match request_json with
  | Some v => mret v
  | None => raise HTTPException
  end.

(** ** requests *)

(** The [Response] object of [requests]: its status code, and the decoded
    body when the body is JSON. *)
Record Response : Type := mkRemote { status_code : Z; decoded : option json }.

(** What one call of [requests.post] does: it raises a
    [RequestException] (connection error, timeout, ...), or it returns a
    response. *)
Inductive post_result : Type :=
| PostRaises (response : option Z)
| PostReturns (r : Response).

Section Requests.
(** The remote side, as seen through [requests.post(url, json=payload)]. *)
Variable remote : string → json → post_result.

Definition requests_post (url : string) (payload : json) : py Response :=
  λ w,
    let w' := mkWorld (user_data w) (outbox w ++ [mkCall url payload]) in
    match remote url payload with
    | PostRaises r => (Raise (RequestException r), w')
    | PostReturns r => (Return r, w')
    end.
End Requests.

(** [response.raise_for_status()]: an [HTTPError] that holds the response,
    for the 4xx and 5xx codes. *)
Definition raise_for_status (r : Response) : py unit :=
  if ((400 <=? status_code r) && (status_code r <? 600))%Z
  then raise (RequestException (Some (status_code r)))
  else mret tt.

(** [response.json()]: a body that is not JSON raises requests'
    [JSONDecodeError], a [RequestException] built without a response. *)
Definition response_json (r : Response) : py json :=
  match decoded r with
  | Some v => mret v
  | None => raise (RequestException None)
  end.

(** ** The in-memory tables *)

Definition initial_user_data : UserAccount := mkUser "User" 1250.

Definition marketplace_items_db : gmap string Z :=
  <["Cloth Tote Bag" := 500]>
  (<["Seed Paper Pack" := 350]>
  (<["Bamboo Coffee Cup" := 750]>
  (<["Compost Bin" := 1500]> ∅))).

Definition initial_world : world := mkWorld initial_user_data [].

(** ** The views *)

Definition error_body (msg : string) : json := JObj [("error", JStr msg)].

Definition api_url (api_key : string) : string :=
  "https://generativelanguage.googleapis.com/v1beta/models/gemini-1.5-flash-latest:generateContent?key="
  ++ api_key.

(** [get_user]: route /api/user. *)
Definition get_user : py response :=
  ud ← read_user_data;
  mret (jsonify (JObj [("name", JStr (name ud)); ("points", JInt (points ud))])).

Definition leaderboard_row (rank : Z) (who : string) (pts : Z) : json :=
  JObj [("rank", JInt rank); ("name", JStr who); ("points", JInt pts)].

(** [get_leaderboard]: route /api/leaderboard. *)
Definition get_leaderboard : py response :=
  ud ← read_user_data;
  let leaderboard_data :=
    [ leaderboard_row 1 "K Keerthana" 5430;
      leaderboard_row 2 "Deepika" 5120;
      leaderboard_row 3 "Aravind" 4980;
      leaderboard_row 4 "Sai Charan" 3200;
      leaderboard_row 5 "Priya" 2150;
      leaderboard_row 6 "Ramesh" 1500;
      leaderboard_row 7 "You" (points ud) ] in
  mret (jsonify (JArr leaderboard_data)).

Definition marketplace_row (icon who : string) (pts : Z) : json :=
  JObj [("icon", JStr icon); ("name", JStr who); ("points", JInt pts)].

(** [get_marketplace_items]: route /api/marketplace. *)
Definition get_marketplace_items : py response :=
  let marketplace_items :=
    [ marketplace_row "fa-shopping-bag" "Cloth Tote Bag" 500;
      marketplace_row "fa-seedling" "Seed Paper Pack" 350;
      marketplace_row "fa-mug-hot" "Bamboo Coffee Cup" 750;
      marketplace_row "fa-recycle" "Compost Bin" 1500 ] in
  mret (jsonify (JArr marketplace_items)).

Definition news_row (title date content : string) : json :=
  JObj [("title", JStr title); ("date", JStr date); ("content", JStr content)].

(** [get_news]: route /api/news. *)
Definition get_news : py response :=
  let news_data :=
    [ news_row "Community Clean-Up Drive This Sunday!" "October 8, 2025"
        "Join us this Sunday at 8 AM near the Ramagundam Municipal Park for our monthly clean-up drive. Let's make our city shine together! Gloves and bags will be provided.";
      news_row "BinMate Reaches 1,000 Users!" "September 28, 2025"
        "We are thrilled to announce that over 1,000 residents are now using BinMate to make a difference.";
      news_row "New Smart Bins Deployed in Sector 5" "September 15, 2025"
        "As part of the Smart City initiative, 20 new IoT-enabled smart bins have been installed across Sector 5." ] in
  mret (jsonify (JArr news_data)).

Section Views.
(** [str(v)] for a decoded value that is not a string, as an f-string
    renders it; a builtin of the language, taken as given. *)
Variable py_str : json → string.

(** The text an f-string puts in place of [{v}]. *)
Definition fstring (v : json) : string :=
  match v with
  | JStr s => s
  | _ => py_str v
  end.

(** [redeem_item]: route /api/marketplace/redeem, POST.  An exception
    that leaves the view is Flask's to answer. *)
Definition redeem_item (request_json : option json) : py response :=
  req ← flask_request_json request_json;
  item_name ← py_get req "name" JNull;
  not_found ←
    (if negb (truthy item_name) then mret true
     else known ← py_in item_name marketplace_items_db; mret (negb known)) : py bool;
  if (not_found : bool) then
    mret (jsonify_status
            (JObj [("success", JBool false); ("message", JStr "Item not found.")]) 404)
  else
    item_cost ← py_lookup marketplace_items_db item_name;
    ud ← read_user_data;
    if (points ud >=? item_cost)%Z then
      write_points (points ud - item_cost);;
      let message := "Successfully redeemed " ++ fstring item_name ++ "!" in
      ud' ← read_user_data;
      mret (jsonify
              (JObj [("success", JBool true); ("message", JStr message);
                     ("new_points", JInt (points ud'))]))
    else
      let message := "Not enough points to redeem " ++ fstring item_name ++ "." in
      ud' ← read_user_data;
      mret (jsonify_status
              (JObj [("success", JBool false); ("message", JStr message);
                     ("new_points", JInt (points ud'))]) 400).

(** The remote service behind [requests.post]. *)
Variable remote : string → json → post_result.

Definition recommend_prompt (item_to_replace : json) : string :=
  "I want to replace '" ++ fstring item_to_replace ++ "'. "
  ++ "In a friendly and encouraging tone, suggest 1-3 common, eco-friendly alternatives. "
  ++ "Keep the total response under 40 words. Start directly with the suggestion, for example: 'Instead of "
  ++ fstring item_to_replace ++ ", you could try...'.".

Definition text_payload (prompt : string) : json :=
  JObj [("contents", JArr [JObj [("parts", JArr [JObj [("text", JStr prompt)]])]])].

Definition fallback_text : string :=
  "Sorry, I could not think of a recommendation right now.".

(** [get_recommendation]: route /api/recommend, POST.  The last handler
    also prints the exception; standard output is not modelled. *)
Definition get_recommendation (api_key : option string) (request_json : option json)
  : py response :=
  match api_key with
  | None | Some EmptyString =>
      mret (jsonify_status (error_body "API key not configured on the server.") 500)
  | Some key =>
      try_except
        (req ← flask_request_json request_json;
         item_to_replace ← py_item req "item";
         if negb (truthy item_to_replace) then
           mret (jsonify_status (error_body "Item field cannot be empty.") 400)
         else
           let payload := text_payload (recommend_prompt item_to_replace) in
           resp ← requests_post remote (api_url key) payload;
           raise_for_status resp;;
           ai_response ← response_json resp;
           candidates ← py_get ai_response "candidates" (JArr [JObj []]);
           candidate ← py_first candidates;
           content ← py_get candidate "content" (JObj []);
           parts ← py_get content "parts" (JArr [JObj []]);
           part ← py_first parts;
           recommendation_text ← py_get part "text" (JStr fallback_text);
           mret (jsonify (JObj [("recommendation", recommendation_text)])))
        (λ e,
           match e with
           | RequestException _ =>
               mret (jsonify_status (error_body "Could not reach the AI service.") 500)
           | KeyError | IndexError =>
               mret (jsonify_status
                       (error_body "Received an invalid response from the AI service.") 500)
           | _ =>
               mret (jsonify_status (error_body "An internal server error occurred.") 500)
           end)
  end.

Definition scan_instruction : string :=
  "Analyze this image and identify the main waste item. Classify it into one of these three categories: Biodegradable, Recyclable, or Hazardous. Respond with only one of these three words, followed by a colon and the name of the item. For example: 'Recyclable: Plastic Bottle'.".

Definition scan_payload (image_data : json) : json :=
  JObj [("contents",
         JArr [JObj [("parts",
                      JArr [JObj [("text", JStr scan_instruction)];
                            JObj [("inlineData",
                                   JObj [("mimeType", JStr "image/jpeg");
                                         ("data", image_data)])]])]])].

(** [e.response.status_code] in the first handler of [scan_image]:
    [e.response] is [None] when the exception holds no response, and
    [None] has no attribute. *)
Definition response_status_code (response : option Z) : py Z :=
  match response with
  | Some code => mret code
  | None => raise AttributeError
  end.

(** [scan_image]: route /api/scan/image, POST.  The last handler also
    prints the exception; standard output is not modelled. *)
Definition scan_image (api_key : option string) (request_json : option json)
  : py response :=
  match api_key with
  | None | Some EmptyString =>
      mret (jsonify_status (error_body "API key not configured on the server.") 500)
  | Some key =>
      try_except
        (req ← flask_request_json request_json;
         image_data ← py_item req "imageData";
         let payload := scan_payload image_data in
         resp ← requests_post remote (api_url key) payload;
         raise_for_status resp;;
         answer ← response_json resp;
         mret (jsonify answer))
        (λ e,
           match e with
           | RequestException r =>
               code ← response_status_code r;
               mret (jsonify_status
                       (error_body ("Could not reach Google API. Status: " ++ str_int code))
                       500)
           | KeyError =>
               mret (jsonify_status
                       (error_body ("Invalid request: " ++ dq ++ "imageData" ++ dq
                                    ++ " field missing.")) 400)
           | _ =>
               mret (jsonify_status (error_body "An internal server error occurred.") 500)
           end)
  end.
End Views.

(** ** The application: one request after another *)

(** A request to one of the JSON routes, with what the view reads from
    its surroundings while it serves the request. *)
Inductive request : Type :=
| GET_user
| GET_leaderboard
| GET_marketplace
| GET_news
| POST_redeem (request_json : option json)
| POST_recommend (api_key : option string) (remote : string → json → post_result)
    (request_json : option json)
| POST_scan_image (api_key : option string) (remote : string → json → post_result)
    (request_json : option json).

Section App.
Variable py_str : json → string.

Definition view (r : request) : py response :=
  match r with
  | GET_user => get_user
  | GET_leaderboard => get_leaderboard
  | GET_marketplace => get_marketplace_items
  | GET_news => get_news
  | POST_redeem request_json => redeem_item py_str request_json
  | POST_recommend api_key remote request_json =>
      get_recommendation py_str remote api_key request_json
  | POST_scan_image api_key remote request_json =>
      scan_image remote api_key request_json
  end.

(** The state a request leaves behind, whether its view returned or
    raised. *)
Definition serve (w : world) (r : request) : world := snd (view r w).

Definition serve_all (w : world) (rs : list request) : world :=
  fold_left serve rs w.
End App.

(** ** Reading responses *)

Definition status_of (r : result response) : option Z :=
  match r with
  | Return resp => Some (status resp)
  | Raise _ => None
  end.

(** The rows of a response whose body is a list. *)
Definition rows_of (r : result response) : list json :=
  match r with
  | Return (mkResponse _ (JArr rows)) => rows
  | _ => []
  end.

Definition row_field (k : string) (row : json) : option json :=
  match row with
  | JObj kvs => dict_lookup kvs k
  | _ => None
  end.

Definition is_you (row : json) : bool :=
  match row_field "name" row with
  | Some (JStr s) => String.eqb s "You"
  | _ => false
  end.

(** ** Vocabulary of the statements *)

(** A computation that leaves the ledger as it found it, whatever it
    returns or raises. *)
Definition keeps_ledger {A : Type} (m : py A) : Prop :=
  ∀ w, user_data (snd (m w)) = user_data w.

(** The answer of the remote service lacks one of the keys on the path
    [candidates[0].content.parts[0].text]: the object has no 'candidates';
    or its first candidate has no 'content'; or the content has no
    'parts'; or the first part has no 'text'. *)
Inductive missing_field : json → Prop :=
| missing_candidates (top : list (string * json)) :
    dict_lookup top "candidates" = None →
    missing_field (JObj top)
| missing_content (top cand : list (string * json)) (more : list json) :
    dict_lookup top "candidates" = Some (JArr (JObj cand :: more)) →
    dict_lookup cand "content" = None →
    missing_field (JObj top)
| missing_parts (top cand content : list (string * json)) (more : list json) :
    dict_lookup top "candidates" = Some (JArr (JObj cand :: more)) →
    dict_lookup cand "content" = Some (JObj content) →
    dict_lookup content "parts" = None →
    missing_field (JObj top)
| missing_text (top cand content part : list (string * json)) (more more' : list json) :
    dict_lookup top "candidates" = Some (JArr (JObj cand :: more)) →
    dict_lookup cand "content" = Some (JObj content) →
    dict_lookup content "parts" = Some (JArr (JObj part :: more')) →
    dict_lookup part "text" = None →
    missing_field (JObj top).

(** The answer of the remote service has 'candidates', or the 'parts' of
    its first candidate, present as an empty list. *)
Inductive empty_list_field : json → Prop :=
| empty_candidates (top : list (string * json)) :
    dict_lookup top "candidates" = Some (JArr []) →
    empty_list_field (JObj top)
| empty_parts (top cand content : list (string * json)) (more : list json) :
    dict_lookup top "candidates" = Some (JArr (JObj cand :: more)) →
    dict_lookup cand "content" = Some (JObj content) →
    dict_lookup content "parts" = Some (JArr []) →
    empty_list_field (JObj top).

(** The remote side that cannot be reached: [requests.post] raises an
    exception that holds no response. *)
Definition unreachable : string → json → post_result := λ _ _, PostRaises None.

(** The remote side that answers every call with status 200 and the JSON
    value [v]. *)
Definition answers (v : json) : string → json → post_result :=
  λ _ _, PostReturns (mkRemote 200 (Some v)).

(** A computation that leaves the whole state as it found it. *)
Definition keeps_world {A : Type} (m : py A) : Prop :=
  ∀ w, snd (m w) = w.

(** A computation that adds the one call [c] to the log of outbound calls
    and changes nothing else, whatever it returns or raises. *)
Definition sends {A : Type} (c : call) (m : py A) : Prop :=
  ∀ w, snd (m w) = mkWorld (user_data w) (outbox w ++ [c]).

(** A view that, whenever it returns, returns a status in [S]. *)
Definition returns_with (S : Z → Prop) (m : py response) : Prop :=
  ∀ w resp, fst (m w) = Return resp → S (status resp).

(** A view that always returns, and with a status in [S]: no exception
    leaves it. *)
Definition answers_with (S : Z → Prop) (m : py response) : Prop :=
  ∀ w, ∃ resp, fst (m w) = Return resp ∧ S (status resp).

(** A computation that makes at most one call of [requests.post], and
    takes nothing from the log of the calls made before. *)
Definition calls_at_most_once {A : Type} (m : py A) : Prop :=
  ∀ w, outbox (snd (m w)) = outbox w
       ∨ ∃ c, outbox (snd (m w)) = (outbox w ++ [c])%list.

(** The value of 'new_points' in an answer that has the field. *)
Definition new_points_of (a : result response) : option Z :=
  match a with
  | Return (mkResponse _ (JObj kvs)) =>
      match dict_lookup kvs "new_points" with
      | Some (JInt n) => Some n
      | _ => None
      end
  | _ => None
  end.

(** The requests to the two proxy routes among [rs]. *)
Definition is_proxy (r : request) : bool :=
  match r with
  | POST_recommend _ _ _ | POST_scan_image _ _ _ => true
  | _ => false
  end.

Section Trace.
Variable py_str : json → string.

(** The requests served one after another, each with its answer, and the
    state left at the end. *)
Fixpoint run (w : world) (rs : list request)
  : list (request * result response) * world :=
  match rs with
  | [] => ([], w)
  | r :: rs' =>
      let '(a, w1) := view py_str r w in
      let '(tr, w2) := run w1 rs' in
      ((r, a) :: tr, w2)
  end.
End Trace.

(** The balance a client reads off the answers: it starts from [p] and
    takes over the 'new_points' of each answer to a redemption that
    carries the field. *)
Definition track (p : Z) (tr : list (request * result response)) : Z :=
  fold_left
    (λ q ra, match fst ra with
             | POST_redeem _ => default q (new_points_of (snd ra))
             | _ => q
             end)
    tr p.



(** ** The price table *)

Lemma marketplace_items_db_positive (nm : string) (c : Z) :
  marketplace_items_db !! nm = Some c → 0 < c.
Proof.
  unfold marketplace_items_db. intros H.
  repeat (rewrite lookup_insert in H; case_decide; [simplify_eq; lia|]).
  by rewrite lookup_empty in H.
Qed.

Lemma marketplace_items_db_nonempty_key (nm : string) (c : Z) :
  marketplace_items_db !! nm = Some c → truthy (JStr nm) = true.
Proof. destruct nm; [discriminate | reflexivity]. Qed.

(** ** Redemption *)

Ltac py_unfold :=
  unfold mbind, py_bind, mret, py_ret, raise, try_except, read_user_data,
    write_points, jsonify, jsonify_status.

Lemma redeem_item_known (py_str : json → string) (fields : list (string * json))
    (nm : string) (c : Z) (w : world) :
  dict_lookup fields "name" = Some (JStr nm) →
  marketplace_items_db !! nm = Some c →
  redeem_item py_str (Some (JObj fields)) w =
    if (points (user_data w) >=? c)%Z then
      (Return (mkResponse 200
                 (JObj [("success", JBool true);
                        ("message", JStr ("Successfully redeemed " ++ nm ++ "!"));
                        ("new_points", JInt (points (user_data w) - c))])),
       mkWorld (mkUser (name (user_data w)) (points (user_data w) - c)) (outbox w))
    else
      (Return (mkResponse 400
                 (JObj [("success", JBool false);
                        ("message", JStr ("Not enough points to redeem " ++ nm ++ "."));
                        ("new_points", JInt (points (user_data w)))])),
       w).
Proof.
  intros Hname Hcost.
  pose proof (marketplace_items_db_nonempty_key _ _ Hcost) as Hne.
  unfold redeem_item, flask_request_json, py_get, py_in, py_lookup. py_unfold.
  rewrite Hname. cbn [default from_option id]. rewrite Hne. cbn [negb].
  rewrite Hcost. rewrite bool_decide_eq_true_2 by eauto. cbn [negb fstring].
  destruct (points (user_data w) >=? c)%Z; reflexivity.
Qed.

(** The request names no catalog item: the field is absent, its value is
    falsy, or it is a string that is no key of the price table. *)
Lemma redeem_item_unknown (py_str : json → string)
    (fields : list (string * json)) (w : world) :
  (dict_lookup fields "name" = None
   ∨ (∃ v, dict_lookup fields "name" = Some v ∧ truthy v = false)
   ∨ (∃ nm, dict_lookup fields "name" = Some (JStr nm)
            ∧ marketplace_items_db !! nm = None)) →
  redeem_item py_str (Some (JObj fields)) w =
    (Return (mkResponse 404
               (JObj [("success", JBool false); ("message", JStr "Item not found.")])),
     w).
Proof.
  unfold redeem_item, flask_request_json, py_get, py_in. py_unfold.
  intros [Habsent | [(v & Hv & Hfalsy) | (nm & Hnm & Hkey)]].
  - rewrite Habsent. reflexivity.
  - rewrite Hv. cbn [default from_option id]. rewrite Hfalsy. reflexivity.
  - rewrite Hnm. cbn [default from_option id].
    destruct (truthy (JStr nm)); [|reflexivity].
    cbn [negb]. rewrite Hkey.
    rewrite bool_decide_eq_false_2 by (intros [? ?]; discriminate).
    reflexivity.
Qed.

(** C1. A redemption request whose item name is a key of the catalog with
    cost [c], served when the balance [p] satisfies [p >= c], returns
    success (status 200, success true) with [new_points = p - c], and the
    stored balance afterwards is [p - c]. *)
Theorem redeem_item_enough_points (py_str : json → string)
    (fields : list (string * json)) (nm : string) (c : Z) (w : world) :
  dict_lookup fields "name" = Some (JStr nm) →
  marketplace_items_db !! nm = Some c →
  points (user_data w) >= c →
  fst (redeem_item py_str (Some (JObj fields)) w) =
    Return (mkResponse 200
              (JObj [("success", JBool true);
                     ("message", JStr ("Successfully redeemed " ++ nm ++ "!"));
                     ("new_points", JInt (points (user_data w) - c))]))
  ∧ points (user_data (snd (redeem_item py_str (Some (JObj fields)) w)))
    = points (user_data w) - c.
Proof.
  intros Hname Hcost Hge.
  rewrite (redeem_item_known py_str fields nm c w Hname Hcost).
  assert ((points (user_data w) >=? c)%Z = true) as -> by (apply Z.geb_le; lia).
  split; reflexivity.
Qed.

Lemma redeem_item_enough_points_witness :
  dict_lookup [("name", JStr "Cloth Tote Bag")] "name" = Some (JStr "Cloth Tote Bag")
  ∧ marketplace_items_db !! "Cloth Tote Bag" = Some 500
  ∧ points (user_data initial_world) >= 500
  ∧ fst (redeem_item (λ _, "") (Some (JObj [("name", JStr "Cloth Tote Bag")])) initial_world) =
      Return (mkResponse 200
                (JObj [("success", JBool true);
                       ("message", JStr "Successfully redeemed Cloth Tote Bag!");
                       ("new_points", JInt 750)]))
  ∧ points (user_data (snd (redeem_item (λ _, "")
                              (Some (JObj [("name", JStr "Cloth Tote Bag")])) initial_world)))
    = 750.
Proof.
  assert (dict_lookup [("name", JStr "Cloth Tote Bag")] "name"
          = Some (JStr "Cloth Tote Bag")) as H1 by reflexivity.
  assert (marketplace_items_db !! "Cloth Tote Bag" = Some 500) as H2 by reflexivity.
  assert (points (user_data initial_world) >= 500) as H3 by (simpl; lia).
  split; [exact H1|]. split; [exact H2|]. split; [exact H3|].
  exact (redeem_item_enough_points (λ _, "") _ _ _ initial_world H1 H2 H3).
Defined.

(** C2. A redemption request whose item name is a key of the catalog with
    cost [c], served when the balance [p] satisfies [p < c], returns status
    400 with success false and [new_points = p], and leaves the state (so
    the stored balance) as it was. *)
Theorem redeem_item_not_enough_points (py_str : json → string)
    (fields : list (string * json)) (nm : string) (c : Z) (w : world) :
  dict_lookup fields "name" = Some (JStr nm) →
  marketplace_items_db !! nm = Some c →
  points (user_data w) < c →
  redeem_item py_str (Some (JObj fields)) w =
    (Return (mkResponse 400
               (JObj [("success", JBool false);
                      ("message", JStr ("Not enough points to redeem " ++ nm ++ "."));
                      ("new_points", JInt (points (user_data w)))])),
     w).
Proof.
  intros Hname Hcost Hlt.
  rewrite (redeem_item_known py_str fields nm c w Hname Hcost).
  assert ((points (user_data w) >=? c)%Z = false) as ->; [|reflexivity].
  apply not_true_is_false. intros Hge. apply Z.geb_le in Hge. lia.
Qed.

Lemma redeem_item_not_enough_points_witness :
  dict_lookup [("name", JStr "Cloth Tote Bag")] "name" = Some (JStr "Cloth Tote Bag")
  ∧ marketplace_items_db !! "Cloth Tote Bag" = Some 500
  ∧ points (user_data (mkWorld (mkUser "User" 100) [])) < 500
  ∧ redeem_item (λ _, "") (Some (JObj [("name", JStr "Cloth Tote Bag")]))
      (mkWorld (mkUser "User" 100) []) =
      (Return (mkResponse 400
                 (JObj [("success", JBool false);
                        ("message", JStr "Not enough points to redeem Cloth Tote Bag.");
                        ("new_points", JInt 100)])),
       mkWorld (mkUser "User" 100) []).
Proof.
  assert (dict_lookup [("name", JStr "Cloth Tote Bag")] "name"
          = Some (JStr "Cloth Tote Bag")) as H1 by reflexivity.
  assert (marketplace_items_db !! "Cloth Tote Bag" = Some 500) as H2 by reflexivity.
  assert (points (user_data (mkWorld (mkUser "User" 100) [])) < 500) as H3
    by (simpl; lia).
  split; [exact H1|]. split; [exact H2|]. split; [exact H3|].
  exact (redeem_item_not_enough_points (λ _, "") _ _ _ _ H1 H2 H3).
Defined.




(** What a redemption does to the state, for every request body: nothing,
    or the deduction of the cost of a catalog item the balance covers. *)
Lemma redeem_item_world (py_str : json → string) (request_json : option json)
    (w : world) :
  snd (redeem_item py_str request_json w) = w
  ∨ ∃ nm c, marketplace_items_db !! nm = Some c
            ∧ points (user_data w) >= c
            ∧ snd (redeem_item py_str request_json w) =
                mkWorld (mkUser (name (user_data w)) (points (user_data w) - c))
                  (outbox w).
Proof.
  destruct request_json as [req|]; [|left; reflexivity].
  destruct req as [ | | | | | |fields]; try (left; reflexivity).
  destruct (dict_lookup fields "name") as [v|] eqn:Hname.
  2:{ left. rewrite redeem_item_unknown by auto. reflexivity. }
  destruct (truthy v) eqn:Htruthy.
  2:{ left. rewrite redeem_item_unknown by eauto. reflexivity. }
  destruct v as [ | | | |nm| | ];
    try (left; unfold redeem_item, flask_request_json, py_get, py_in; py_unfold;
         rewrite Hname; cbn [default from_option id]; rewrite Htruthy; reflexivity).
  destruct (marketplace_items_db !! nm) as [c|] eqn:Hcost.
  2:{ left. rewrite redeem_item_unknown by eauto. reflexivity. }
  rewrite (redeem_item_known py_str fields nm c w Hname Hcost).
  destruct (points (user_data w) >=? c)%Z eqn:Hge; [|left; reflexivity].
  right. exists nm, c. apply Z.geb_le in Hge. repeat split; [done | lia].
Qed.

(** *** The views that do not touch the ledger *)

Lemma keeps_ledger_ret {A : Type} (a : A) : keeps_ledger (mret a).
Proof. intros w. reflexivity. Qed.

Lemma keeps_ledger_raise {A : Type} (e : exn) : keeps_ledger (raise e : py A).
Proof. intros w. reflexivity. Qed.

Lemma keeps_ledger_bind {A B : Type} (m : py A) (f : A → py B) :
  keeps_ledger m → (∀ a, keeps_ledger (f a)) → keeps_ledger (m ≫= f).
Proof.
  intros Hm Hf w. unfold mbind, py_bind.
  specialize (Hm w). destruct (m w) as [[a|e] w1]; cbn in Hm |- *.
  - rewrite Hf. exact Hm.
  - exact Hm.
Qed.

Lemma keeps_ledger_try {A : Type} (m : py A) (h : exn → py A) :
  keeps_ledger m → (∀ e, keeps_ledger (h e)) → keeps_ledger (try_except m h).
Proof.
  intros Hm Hh w. unfold try_except.
  specialize (Hm w). destruct (m w) as [[a|e] w1]; cbn in Hm |- *.
  - exact Hm.
  - rewrite Hh. exact Hm.
Qed.

Lemma keeps_ledger_requests_post (remote : string → json → post_result)
    (url : string) (payload : json) :
  keeps_ledger (requests_post remote url payload).
Proof. intros w. unfold requests_post. destruct (remote url payload); reflexivity. Qed.

Lemma keeps_ledger_read_user_data : keeps_ledger read_user_data.
Proof. intros w. reflexivity. Qed.

Ltac keeps_ledger_step :=
  first
    [ apply keeps_ledger_ret
    | apply keeps_ledger_raise
    | apply keeps_ledger_requests_post
    | apply keeps_ledger_read_user_data
    | apply keeps_ledger_bind; [|intros ?]
    | apply keeps_ledger_try; [|intros ?]
    | match goal with
      | |- keeps_ledger (if ?b then _ else _) => destruct b
      | |- keeps_ledger (match ?x with _ => _ end) => destruct x
      end ].

Ltac keeps_ledger_auto := repeat keeps_ledger_step.

Lemma keeps_ledger_get_recommendation (py_str : json → string)
    (remote : string → json → post_result) (api_key : option string)
    (request_json : option json) :
  keeps_ledger (get_recommendation py_str remote api_key request_json).
Proof.
  unfold get_recommendation, flask_request_json, py_item, py_get, py_first,
    raise_for_status, response_json.
  keeps_ledger_auto.
Qed.

Lemma keeps_ledger_scan_image (remote : string → json → post_result)
    (api_key : option string) (request_json : option json) :
  keeps_ledger (scan_image remote api_key request_json).
Proof.
  unfold scan_image, flask_request_json, py_item, raise_for_status, response_json,
    response_status_code.
  keeps_ledger_auto.
Qed.

Lemma serve_points_nonneg (py_str : json → string) (w : world) (r : request) :
  0 <= points (user_data w) → 0 <= points (user_data (serve py_str w r)).
Proof.
  intros Hw. unfold serve. destruct r; cbn [view].
  - exact Hw.
  - exact Hw.
  - exact Hw.
  - exact Hw.
  - destruct (redeem_item_world py_str request_json w) as [-> | (nm & c & _ & Hge & ->)].
    + exact Hw.
    + cbn. lia.
  - rewrite keeps_ledger_get_recommendation. exact Hw.
  - rewrite keeps_ledger_scan_image. exact Hw.
Qed.

Lemma serve_all_points_nonneg (py_str : json → string) (rs : list request) (w : world) :
  0 <= points (user_data w) → 0 <= points (user_data (serve_all py_str w rs)).
Proof.
  revert w. induction rs as [|r rs IH]; intros w Hw; cbn.
  - exact Hw.
  - apply IH. by apply serve_points_nonneg.
Qed.

(** C4. Started from the initial balance 1250, every sequence of requests
    (reads, redemptions and calls of the two proxy views, with any inputs)
    leaves the stored points non-negative. *)
Theorem points_never_negative (py_str : json → string) (rs : list request) :
  0 <= points (user_data (serve_all py_str initial_world rs)).
Proof. apply serve_all_points_nonneg. cbn. lia. Qed.

(** ** The proxy views *)

(** C5. With no API key in the process configuration, both proxy views
    return status 500 with the configuration error and leave the state as
    it was, so the log of outbound calls gains nothing: no call of
    [requests.post] is made, whatever the request body and whatever the
    remote side would answer. *)
Theorem no_api_key_no_call (py_str : json → string)
    (remote : string → json → post_result) (request_json : option json) (w : world) :
  get_recommendation py_str remote None request_json w =
    (Return (mkResponse 500 (error_body "API key not configured on the server.")), w)
  ∧ scan_image remote None request_json w =
    (Return (mkResponse 500 (error_body "API key not configured on the server.")), w).
Proof. split; reflexivity. Qed.

(** An API key set to the empty string counts as absent. *)
Lemma empty_api_key_no_call (py_str : json → string)
    (remote : string → json → post_result) (request_json : option json) (w : world) :
  get_recommendation py_str remote (Some "") request_json w =
    (Return (mkResponse 500 (error_body "API key not configured on the server.")), w)
  ∧ scan_image remote (Some "") request_json w =
    (Return (mkResponse 500 (error_body "API key not configured on the server.")), w).
Proof. split; reflexivity. Qed.

(** C6, the part the code keeps: an 'item' that is present and empty is
    refused with status 400, before any outbound call. *)
Lemma recommend_empty_item (py_str : json → string)
    (remote : string → json → post_result) (c : ascii) (k : string)
    (fields : list (string * json)) (item : json) (w : world) :
  dict_lookup fields "item" = Some item →
  truthy item = false →
  get_recommendation py_str remote (Some (String c k)) (Some (JObj fields)) w =
    (Return (mkResponse 400 (error_body "Item field cannot be empty.")), w).
Proof.
  intros Hitem Hfalsy.
  unfold get_recommendation, flask_request_json, py_item. py_unfold.
  rewrite Hitem, Hfalsy. reflexivity.
Qed.

(** C6, where the code departs from the claim.  With the API key
    configured, a body that is an object without the 'item' key is not
    answered with status 400: the [KeyError] of [request.json['item']] is
    caught by the handler written for the remote answer, and the view
    returns status 500 with "Received an invalid response from the AI
    service."; no outbound call is made. *)
Theorem recommend_missing_item (py_str : json → string)
    (remote : string → json → post_result) (c : ascii) (k : string)
    (fields : list (string * json)) (w : world) :
  dict_lookup fields "item" = None →
  get_recommendation py_str remote (Some (String c k)) (Some (JObj fields)) w =
    (Return (mkResponse 500
               (error_body "Received an invalid response from the AI service.")), w).
Proof.
  intros Hitem.
  unfold get_recommendation, flask_request_json, py_item. py_unfold.
  rewrite Hitem. reflexivity.
Qed.

Lemma recommend_missing_item_witness :
  dict_lookup [] "item" = None
  ∧ get_recommendation (λ _, "") unreachable (Some "k") (Some (JObj [])) initial_world =
      (Return (mkResponse 500
                 (error_body "Received an invalid response from the AI service.")),
       initial_world).
Proof.
  split; [reflexivity|].
  exact (recommend_missing_item (λ _, "") unreachable "k"%char "" [] initial_world
           eq_refl).
Defined.

(** A transport failure that holds a response (an exception of
    [requests.post] with a response, or a 4xx/5xx answer turned into one
    by [raise_for_status]) gives status 500 with the remote status code in
    the message. *)
Lemma scan_image_remote_status (remote : string → json → post_result)
    (c : ascii) (k : string) (fields : list (string * json)) (image_data : json)
    (w : world) (code : Z) :
  dict_lookup fields "imageData" = Some image_data →
  (remote (api_url (String c k)) (scan_payload image_data) = PostRaises (Some code)
   ∨ ∃ decoded, remote (api_url (String c k)) (scan_payload image_data)
                = PostReturns (mkRemote code decoded) ∧ 400 <= code < 600) →
  fst (scan_image remote (Some (String c k)) (Some (JObj fields)) w) =
    Return (mkResponse 500
              (error_body ("Could not reach Google API. Status: " ++ str_int code))).
Proof.
  intros Himg Hremote.
  unfold scan_image, flask_request_json, py_item, requests_post, raise_for_status,
    response_status_code. py_unfold.
  rewrite Himg.
  destruct Hremote as [-> | (d & -> & Hcode)]; [reflexivity|].
  cbn [status_code].
  assert (((400 <=? code) && (code <? 600))%Z = true) as ->; [|reflexivity].
  apply andb_true_intro. split; [apply Z.leb_le | apply Z.ltb_lt]; lia.
Qed.

Lemma scan_image_remote_status_witness :
  fst (scan_image (λ _ _, PostReturns (mkRemote 429 None)) (Some "k")
         (Some (JObj [("imageData", JStr "aGk=")])) initial_world) =
    Return (mkResponse 500 (error_body "Could not reach Google API. Status: 429")).
Proof.
  refine (scan_image_remote_status (λ _ _, PostReturns (mkRemote 429 None)) "k"%char ""
            [("imageData", JStr "aGk=")] (JStr "aGk=") initial_world 429 _ _);
    [reflexivity | right; exists None; split; [reflexivity | lia]].
Defined.

(** C8, where the code departs from the claim.  With the API key
    configured and 'imageData' present, a transport failure that holds no
    response (a connection failure: [requests.post] raises an exception
    whose [response] is [None]) is not answered with the
    service-unavailable error: reading [e.response.status_code] raises
    [AttributeError] inside the handler, and the exception leaves the
    view, after the one outbound call. *)
Theorem scan_image_no_response (remote : string → json → post_result)
    (c : ascii) (k : string) (fields : list (string * json)) (image_data : json)
    (w : world) :
  dict_lookup fields "imageData" = Some image_data →
  remote (api_url (String c k)) (scan_payload image_data) = PostRaises None →
  scan_image remote (Some (String c k)) (Some (JObj fields)) w =
    (Raise AttributeError,
     mkWorld (user_data w)
       (outbox w ++ [mkCall (api_url (String c k)) (scan_payload image_data)])).
Proof.
  intros Himg Hremote.
  unfold scan_image, flask_request_json, py_item, requests_post, raise_for_status,
    response_status_code. py_unfold.
  rewrite Himg, Hremote. reflexivity.
Qed.

Lemma scan_image_no_response_witness :
  dict_lookup [("imageData", JStr "aGk=")] "imageData" = Some (JStr "aGk=")
  ∧ unreachable (api_url "k") (scan_payload (JStr "aGk=")) = PostRaises None
  ∧ scan_image unreachable (Some "k") (Some (JObj [("imageData", JStr "aGk=")]))
      initial_world =
      (Raise AttributeError,
       mkWorld initial_user_data
         [mkCall (api_url "k") (scan_payload (JStr "aGk="))]).
Proof.
  split; [reflexivity|]. split; [reflexivity|].
  exact (scan_image_no_response unreachable "k"%char "" [("imageData", JStr "aGk=")]
           (JStr "aGk=") initial_world eq_refl eq_refl).
Defined.

(** C7, as the claim states it, fails: the remote call succeeds and the
    answer [{}] lacks every expected field, yet the view returns status
    200 with a recommendation (the fixed fallback text), not an error. *)
Lemma recommend_missing_fields_counterexample :
  missing_field (JObj [])
  ∧ get_recommendation (λ _, "") (answers (JObj [])) (Some "k")
      (Some (JObj [("item", JStr "plastic straw")])) initial_world =
    (Return (mkResponse 200 (JObj [("recommendation", JStr fallback_text)])),
     mkWorld initial_user_data
       [mkCall (api_url "k")
          (text_payload (recommend_prompt (λ _, "") (JStr "plastic straw")))]).
Proof. split; [by apply missing_candidates | reflexivity]. Qed.

(** C7, amended.  The remote call succeeds at the transport level
    ([requests.post] returns, the status is outside 400..599, the body is
    JSON).  When a key on the path [candidates[0].content.parts[0].text]
    is absent from the answer, the view returns status 200 and the
    recommendation is the fixed fallback text.  When 'candidates' or
    'parts' is present as an empty list, the view returns status 500 with
    the error "Received an invalid response from the AI service.". *)
Theorem recommend_incomplete_response (py_str : json → string)
    (remote : string → json → post_result) (c : ascii) (k : string)
    (fields : list (string * json)) (item : json) (r : Response) (ai : json)
    (w : world) :
  dict_lookup fields "item" = Some item →
  truthy item = true →
  remote (api_url (String c k)) (text_payload (recommend_prompt py_str item))
    = PostReturns r →
  ¬ (400 <= status_code r < 600) →
  decoded r = Some ai →
  (missing_field ai →
   fst (get_recommendation py_str remote (Some (String c k)) (Some (JObj fields)) w) =
     Return (mkResponse 200 (JObj [("recommendation", JStr fallback_text)])))
  ∧ (empty_list_field ai →
     fst (get_recommendation py_str remote (Some (String c k)) (Some (JObj fields)) w) =
       Return (mkResponse 500
                 (error_body "Received an invalid response from the AI service."))).
Proof.
  intros Hitem Htruthy Hremote Hstatus Hdecoded.
  assert (((400 <=? status_code r) && (status_code r <? 600))%Z = false) as Hrange.
  { apply not_true_is_false. intros H. apply andb_prop in H as [H1 H2].
    apply Z.leb_le in H1. apply Z.ltb_lt in H2. lia. }
  unfold get_recommendation, flask_request_json, py_item, requests_post,
    raise_for_status, response_json. py_unfold.
  rewrite Hitem, Htruthy. cbn [negb]. rewrite Hremote, Hrange, Hdecoded.
  unfold py_get, py_first. py_unfold.
  split; intros Hai; destruct Hai;
    repeat (match goal with
            | H : dict_lookup _ _ = _ |- _ => rewrite H; clear H
            end; cbn);
    reflexivity.
Qed.

Lemma recommend_incomplete_response_witness :
  missing_field (JObj [("candidates", JArr [JObj [("finishReason", JStr "STOP")]])])
  ∧ fst (get_recommendation (λ _, "")
           (answers (JObj [("candidates", JArr [JObj [("finishReason", JStr "STOP")]])]))
           (Some "k") (Some (JObj [("item", JStr "plastic straw")])) initial_world) =
      Return (mkResponse 200 (JObj [("recommendation", JStr fallback_text)])).
Proof.
  assert (missing_field
            (JObj [("candidates", JArr [JObj [("finishReason", JStr "STOP")]])])) as Hm.
  { eapply missing_content; reflexivity. }
  split; [exact Hm|].
  refine (proj1 (recommend_incomplete_response (λ _, "")
                   (answers (JObj [("candidates",
                                    JArr [JObj [("finishReason", JStr "STOP")]])]))
                   "k"%char "" [("item", JStr "plastic straw")] (JStr "plastic straw")
                   (mkRemote 200
                      (Some (JObj [("candidates",
                                    JArr [JObj [("finishReason", JStr "STOP")]])])))
                   _ initial_world _ _ _ _ _) Hm);
    [reflexivity | reflexivity | reflexivity | simpl; lia | reflexivity].
Defined.

(** ** The leaderboard *)

(** C9. For every state of the ledger, the leaderboard view returns seven
    rows whose ranks are 1..7 in this order, and the one row named "You"
    carries the points the ledger holds when the request is served; so a
    leaderboard read that follows a successful redemption of an item of
    cost [c] shows the balance less [c]. *)
Theorem leaderboard_reads_ledger (py_str : json → string) (w : world) :
  let rows := rows_of (fst (get_leaderboard w)) in
  status_of (fst (get_leaderboard w)) = Some 200
  ∧ snd (get_leaderboard w) = w
  ∧ length rows = 7%nat
  ∧ map (row_field "rank") rows = map (λ n, Some (JInt n)) [1; 2; 3; 4; 5; 6; 7]
  ∧ map (row_field "points") (List.filter is_you rows)
    = [Some (JInt (points (user_data w)))]
  ∧ ∀ (fields : list (string * json)) (nm : string) (c : Z),
      dict_lookup fields "name" = Some (JStr nm) →
      marketplace_items_db !! nm = Some c →
      points (user_data w) >= c →
      map (row_field "points")
        (List.filter is_you
           (rows_of (fst (get_leaderboard
                            (snd (redeem_item py_str (Some (JObj fields)) w))))))
      = [Some (JInt (points (user_data w) - c))].
Proof.
  cbn zeta. repeat split.
  intros fields nm c Hname Hcost Hge.
  rewrite (redeem_item_known py_str fields nm c w Hname Hcost).
  assert ((points (user_data w) >=? c)%Z = true) as -> by (apply Z.geb_le; lia).
  reflexivity.
Qed.

Lemma leaderboard_reads_ledger_witness :
  map (row_field "points")
    (List.filter is_you (rows_of (fst (get_leaderboard initial_world))))
  = [Some (JInt 1250)]
  ∧ map (row_field "points")
      (List.filter is_you
         (rows_of (fst (get_leaderboard
                          (snd (redeem_item (λ _, "")
                                  (Some (JObj [("name", JStr "Cloth Tote Bag")]))
                                  initial_world))))))
    = [Some (JInt 750)].
Proof.
  pose proof (leaderboard_reads_ledger (λ _, "") initial_world) as H.
  cbn zeta in H. destruct H as (_ & _ & _ & _ & Hyou & Hafter).
  split; [exact Hyou|].
  refine (Hafter [("name", JStr "Cloth Tote Bag")] "Cloth Tote Bag" 500 _ _ _);
    [reflexivity | reflexivity | simpl; lia].
Defined.

(** ** Presence checks of the two proxy views *)

(** With 'imageData' present, whatever its value, [scan_image] makes its
    one outbound call with that value as the image data, and its answer
    is never status 400. *)
Lemma scan_image_present (remote : string → json → post_result)
    (c : ascii) (k : string) (fields : list (string * json)) (image_data : json)
    (w : world) :
  dict_lookup fields "imageData" = Some image_data →
  outbox (snd (scan_image remote (Some (String c k)) (Some (JObj fields)) w))
    = (outbox w ++ [mkCall (api_url (String c k)) (scan_payload image_data)])%list
  ∧ status_of (fst (scan_image remote (Some (String c k)) (Some (JObj fields)) w))
    ≠ Some 400.
Proof.
  intros Himg.
  unfold scan_image, flask_request_json, py_item, requests_post, raise_for_status,
    response_json, response_status_code. py_unfold.
  rewrite Himg.
  destruct (remote _ _) as [[code|]|[code [answer|]]]; cbn [status_code decoded];
    try destruct ((400 <=? code) && (code <? 600))%Z;
    split; try reflexivity; discriminate.
Qed.

Lemma scan_image_missing (remote : string → json → post_result)
    (c : ascii) (k : string) (fields : list (string * json)) (w : world) :
  dict_lookup fields "imageData" = None →
  scan_image remote (Some (String c k)) (Some (JObj fields)) w =
    (Return (mkResponse 400
               (error_body ("Invalid request: " ++ dq ++ "imageData" ++ dq
                            ++ " field missing."))), w).
Proof.
  intros Himg. unfold scan_image, flask_request_json, py_item. py_unfold.
  rewrite Himg. reflexivity.
Qed.

(** C10. With the API key configured, [scan_image] answers status 400
    exactly when the body is an object without the 'imageData' key, and
    then with the "imageData field missing" error; an 'imageData' present
    as the empty string is taken and sent to the remote service: the one
    outbound call goes to the fixed URL with the key appended and carries
    the instruction and the empty string as the image/jpeg inline data;
    [get_recommendation] refuses an 'item' present as the empty string
    with status 400 and makes no call. *)
Theorem scan_image_presence_check_only (py_str : json → string)
    (remote : string → json → post_result) (c : ascii) (k : string)
    (request_json : option json) (w : world) :
  (status_of (fst (scan_image remote (Some (String c k)) request_json w)) = Some 400
   ↔ ∃ fields, request_json = Some (JObj fields)
               ∧ dict_lookup fields "imageData" = None)
  ∧ (∀ fields, dict_lookup fields "imageData" = None →
       scan_image remote (Some (String c k)) (Some (JObj fields)) w =
         (Return (mkResponse 400
                    (JObj [("error",
                           JStr ("Invalid request: "
                                 ++ String "034"%char
                                     ("imageData"
                                      ++ String "034"%char " field missing.")))])), w))
  ∧ (∀ fields, dict_lookup fields "imageData" = Some (JStr "") →
       outbox (snd (scan_image remote (Some (String c k)) (Some (JObj fields)) w))
         = (outbox w
            ++ [mkCall
                  ("https://generativelanguage.googleapis.com/v1beta/models/gemini-1.5-flash-latest:generateContent?key="
                   ++ String c k)
                  (JObj [("contents",
                         JArr [JObj [("parts",
                                      JArr [JObj [("text", JStr "Analyze this image and identify the main waste item. Classify it into one of these three categories: Biodegradable, Recyclable, or Hazardous. Respond with only one of these three words, followed by a colon and the name of the item. For example: 'Recyclable: Plastic Bottle'.")];
                                            JObj [("inlineData",
                                                   JObj [("mimeType", JStr "image/jpeg");
                                                         ("data", JStr "")])]])]])])])%list
       ∧ status_of (fst (scan_image remote (Some (String c k)) (Some (JObj fields)) w))
         ≠ Some 400)
  ∧ (∀ fields, dict_lookup fields "item" = Some (JStr "") →
       get_recommendation py_str remote (Some (String c k)) (Some (JObj fields)) w =
         (Return (mkResponse 400 (JObj [("error", JStr "Item field cannot be empty.")])),
          w)).
Proof.
  split; [|split; [|split]].
  - split.
    + intros H400.
      destruct request_json as [req|]; [|discriminate].
      destruct req as [ | | | | | |fields]; try discriminate.
      exists fields. split; [reflexivity|].
      destruct (dict_lookup fields "imageData") as [v|] eqn:Himg; [|reflexivity].
      by destruct (scan_image_present remote c k fields v w Himg) as [_ Hne].
    + intros (fields & -> & Himg). by rewrite scan_image_missing.
  - intros fields Himg. exact (scan_image_missing remote c k fields w Himg).
  - intros fields Himg. exact (scan_image_present remote c k fields (JStr "") w Himg).
  - intros fields Hitem.
    exact (recommend_empty_item py_str remote c k fields (JStr "") w Hitem eq_refl).
Qed.

Lemma scan_image_presence_check_only_witness :
  outbox (snd (scan_image (answers (JObj [])) (Some "k")
                 (Some (JObj [("imageData", JStr "")])) initial_world))
    = [mkCall
         "https://generativelanguage.googleapis.com/v1beta/models/gemini-1.5-flash-latest:generateContent?key=k"
         (JObj [("contents",
                JArr [JObj [("parts",
                             JArr [JObj [("text", JStr "Analyze this image and identify the main waste item. Classify it into one of these three categories: Biodegradable, Recyclable, or Hazardous. Respond with only one of these three words, followed by a colon and the name of the item. For example: 'Recyclable: Plastic Bottle'.")];
                                   JObj [("inlineData",
                                          JObj [("mimeType", JStr "image/jpeg");
                                                ("data", JStr "")])]])]])])]
  ∧ scan_image (answers (JObj [])) (Some "k") (Some (JObj [])) initial_world =
      (Return (mkResponse 400
                 (JObj [("error",
                           JStr ("Invalid request: "
                                 ++ String "034"%char
                                     ("imageData"
                                      ++ String "034"%char " field missing.")))])),
       initial_world)
  ∧ get_recommendation (λ _, "") (answers (JObj [])) (Some "k")
      (Some (JObj [("item", JStr "")])) initial_world =
      (Return (mkResponse 400 (JObj [("error", JStr "Item field cannot be empty.")])),
       initial_world).
Proof.
  destruct (scan_image_presence_check_only (λ _, "") (answers (JObj [])) "k"%char ""
              (Some (JObj [("imageData", JStr "")])) initial_world)
    as (_ & Hmissing & Hempty & Hitem).
  split; [|split].
  - exact (proj1 (Hempty [("imageData", JStr "")] eq_refl)).
  - exact (Hmissing [] eq_refl).
  - exact (Hitem [("item", JStr "")] eq_refl).
Defined.

(** ** Inputs outside the contract of the redemption view *)

(** An item name that is a non-empty list or object cannot be hashed: the
    membership test raises [TypeError], which leaves the view; the state
    is as it was. *)
Lemma redeem_item_unhashable_name (py_str : json → string)
    (fields : list (string * json)) (v : json) (w : world) :
  dict_lookup fields "name" = Some v →
  truthy v = true →
  (∃ xs, v = JArr xs) ∨ (∃ kvs, v = JObj kvs) →
  redeem_item py_str (Some (JObj fields)) w = (Raise TypeError, w).
Proof.
  intros Hname Htruthy Hshape.
  unfold redeem_item, flask_request_json, py_get, py_in. py_unfold.
  rewrite Hname. cbn [default from_option id]. rewrite Htruthy.
  destruct Hshape as [[xs ->] | [kvs ->]]; reflexivity.
Qed.

Lemma redeem_item_unhashable_name_witness :
  redeem_item (λ _, "") (Some (JObj [("name", JArr [JStr "Cloth Tote Bag"])]))
    initial_world = (Raise TypeError, initial_world).
Proof.
  refine (redeem_item_unhashable_name (λ _, "")
            [("name", JArr [JStr "Cloth Tote Bag"])] (JArr [JStr "Cloth Tote Bag"])
            initial_world _ _ _);
    [reflexivity | reflexivity | left; eexists; reflexivity].
Defined.

(** A truthy item name that is a boolean or a number is hashed, is no key
    of the catalog, and is answered like an unknown name. *)
Lemma redeem_item_scalar_name (py_str : json → string)
    (fields : list (string * json)) (v : json) (w : world) :
  dict_lookup fields "name" = Some v →
  (∃ b, v = JBool b) ∨ (∃ n, v = JInt n) ∨ (∃ x, v = JFloat x) →
  redeem_item py_str (Some (JObj fields)) w =
    (Return (mkResponse 404
               (JObj [("success", JBool false); ("message", JStr "Item not found.")])),
     w).
Proof.
  intros Hname Hshape.
  unfold redeem_item, flask_request_json, py_get, py_in. py_unfold.
  rewrite Hname. cbn [default from_option id].
  destruct Hshape as [[b ->] | [[n ->] | [x ->]]];
    destruct (truthy _); reflexivity.
Qed.

(** ** Further properties of the views *)

(** Redemption is not idempotent: the same request served twice deducts
    twice while the balance covers the cost. *)
Lemma redeem_item_twice_deducts_twice (py_str : json → string) :
  points (user_data
            (serve_all py_str initial_world
               [POST_redeem (Some (JObj [("name", JStr "Cloth Tote Bag")]));
                POST_redeem (Some (JObj [("name", JStr "Cloth Tote Bag")]))]))
  = 250.
Proof. reflexivity. Qed.

(** The marketplace view returns four rows, and the points of each row
    are the cost the price table holds for the row's name; the table has
    no other key. *)
Lemma marketplace_rows_match_db (w : world) :
  status_of (fst (get_marketplace_items w)) = Some 200
  ∧ snd (get_marketplace_items w) = w
  ∧ length (rows_of (fst (get_marketplace_items w))) = 4%nat
  ∧ size marketplace_items_db = 4%nat
  ∧ Forall (λ row, ∃ nm c, row_field "name" row = Some (JStr nm)
                           ∧ row_field "points" row = Some (JInt c)
                           ∧ marketplace_items_db !! nm = Some c)
      (rows_of (fst (get_marketplace_items w))).
Proof.
  repeat split.
  cbn. repeat constructor; eexists _, _; repeat split.
Qed.

(** In [get_recommendation] a transport failure, with or without a
    response, is answered with status 500 and "Could not reach the AI
    service.". *)
Lemma recommend_transport_failure (py_str : json → string)
    (remote : string → json → post_result) (c : ascii) (k : string)
    (fields : list (string * json)) (item : json) (w : world) :
  dict_lookup fields "item" = Some item →
  truthy item = true →
  ((∃ resp, remote (api_url (String c k)) (text_payload (recommend_prompt py_str item))
            = PostRaises resp)
   ∨ ∃ r, remote (api_url (String c k)) (text_payload (recommend_prompt py_str item))
          = PostReturns r ∧ 400 <= status_code r < 600) →
  fst (get_recommendation py_str remote (Some (String c k)) (Some (JObj fields)) w) =
    Return (mkResponse 500 (error_body "Could not reach the AI service.")).
Proof.
  intros Hitem Htruthy Hremote.
  unfold get_recommendation, flask_request_json, py_item, requests_post,
    raise_for_status. py_unfold.
  rewrite Hitem, Htruthy. cbn [negb].
  destruct Hremote as [[resp ->] | (r & -> & Hcode)]; [reflexivity|].
  assert (((400 <=? status_code r) && (status_code r <? 600))%Z = true) as ->;
    [|reflexivity].
  apply andb_true_intro. split; [apply Z.leb_le | apply Z.ltb_lt]; lia.
Qed.

Lemma recommend_transport_failure_witness :
  fst (get_recommendation (λ _, "") unreachable (Some "k")
         (Some (JObj [("item", JStr "plastic straw")])) initial_world) =
    Return (mkResponse 500 (error_body "Could not reach the AI service.")).
Proof.
  refine (recommend_transport_failure (λ _, "") unreachable "k"%char ""
            [("item", JStr "plastic straw")] (JStr "plastic straw") initial_world
            _ _ _);
    [reflexivity | reflexivity | left; eexists; reflexivity].
Defined.

(** ** Every outcome of a redemption *)

(** The four outcomes of [redeem_item], for every request body: an
    exception leaves the view; the name is unknown; the balance does not
    cover the cost; the cost is deducted. *)
Lemma redeem_item_outcome (py_str : json → string) (request_json : option json)
    (w : world) :
  (∃ e, redeem_item py_str request_json w = (Raise e, w))
  ∨ redeem_item py_str request_json w =
      (Return (mkResponse 404
                 (JObj [("success", JBool false); ("message", JStr "Item not found.")])),
       w)
  ∨ (∃ nm c, marketplace_items_db !! nm = Some c
             ∧ points (user_data w) < c
             ∧ redeem_item py_str request_json w =
                 (Return (mkResponse 400
                            (JObj [("success", JBool false);
                                   ("message",
                                    JStr ("Not enough points to redeem " ++ nm ++ "."));
                                   ("new_points", JInt (points (user_data w)))])),
                  w))
  ∨ (∃ nm c, marketplace_items_db !! nm = Some c
             ∧ c <= points (user_data w)
             ∧ redeem_item py_str request_json w =
                 (Return (mkResponse 200
                            (JObj [("success", JBool true);
                                   ("message",
                                    JStr ("Successfully redeemed " ++ nm ++ "!"));
                                   ("new_points", JInt (points (user_data w) - c))])),
                  mkWorld (mkUser (name (user_data w)) (points (user_data w) - c))
                    (outbox w))).
Proof.
  destruct request_json as [req|]; [|left; by exists HTTPException].
  destruct req as [ | | | | | |fields];
    try (left; by exists AttributeError).
  destruct (dict_lookup fields "name") as [v|] eqn:Hname.
  2:{ right; left. by rewrite redeem_item_unknown by auto. }
  destruct (truthy v) eqn:Htruthy.
  2:{ right; left. by rewrite redeem_item_unknown by eauto. }
  destruct v as [ |b|n|x|nm|xs|kvs].
  - discriminate.
  - right; left. unfold redeem_item, flask_request_json, py_get, py_in. py_unfold.
    rewrite Hname. cbn [default from_option id]. rewrite Htruthy. reflexivity.
  - right; left. unfold redeem_item, flask_request_json, py_get, py_in. py_unfold.
    rewrite Hname. cbn [default from_option id]. rewrite Htruthy. reflexivity.
  - right; left. unfold redeem_item, flask_request_json, py_get, py_in. py_unfold.
    rewrite Hname. cbn [default from_option id]. rewrite Htruthy. reflexivity.
  - destruct (marketplace_items_db !! nm) as [c|] eqn:Hcost.
    2:{ right; left. by rewrite redeem_item_unknown by eauto. }
    rewrite (redeem_item_known py_str fields nm c w Hname Hcost).
    destruct (points (user_data w) >=? c)%Z eqn:Hge.
    + right; right; right. exists nm, c. apply Z.geb_le in Hge. auto.
    + right; right; left. exists nm, c. split; [done|]. split; [|done].
      destruct (Z.ltb_spec (points (user_data w)) c) as [Hlt|Hle]; [done|].
      apply Z.geb_le in Hle. congruence.
  - left. exists TypeError.
    unfold redeem_item, flask_request_json, py_get, py_in. py_unfold.
    rewrite Hname. cbn [default from_option id]. rewrite Htruthy. reflexivity.
  - left. exists TypeError.
    unfold redeem_item, flask_request_json, py_get, py_in. py_unfold.
    rewrite Hname. cbn [default from_option id]. rewrite Htruthy. reflexivity.
Qed.

(** The ledger changes exactly when the answer is a success: status 200
    means the points went down; any other outcome, an exception included,
    leaves the whole state as it was.  The user's name and the log of
    outbound calls are never touched. *)
Lemma redeem_item_deducts_only_on_success (py_str : json → string)
    (request_json : option json) (w : world) :
  (status_of (fst (redeem_item py_str request_json w)) = Some 200
   ↔ points (user_data (snd (redeem_item py_str request_json w)))
     < points (user_data w))
  ∧ (status_of (fst (redeem_item py_str request_json w)) ≠ Some 200
     → snd (redeem_item py_str request_json w) = w)
  ∧ name (user_data (snd (redeem_item py_str request_json w))) = name (user_data w)
  ∧ outbox (snd (redeem_item py_str request_json w)) = outbox w.
Proof.
  destruct (redeem_item_outcome py_str request_json w)
    as [(e & ->) | [-> | [(nm & c & _ & _ & ->) | (nm & c & Hcost & Hge & ->)]]];
    cbn [fst snd status_of status user_data points name outbox].
  - split; [split; intros H; [discriminate | lia]|].
    split; [reflexivity|]. split; reflexivity.
  - split; [split; intros H; [discriminate | lia]|].
    split; [reflexivity|]. split; reflexivity.
  - split; [split; intros H; [discriminate | lia]|].
    split; [reflexivity|]. split; reflexivity.
  - apply marketplace_items_db_positive in Hcost.
    split; [split; intros H; [lia | reflexivity]|].
    split; [intros H; exfalso; apply H; reflexivity|]. split; reflexivity.
Qed.

(** When it returns, [redeem_item] answers 200, 400 or 404, never another
    status, and the 'success' field of the body goes with the status: true
    with 200, false with 400 and 404. *)
Lemma redeem_item_statuses (py_str : json → string) (request_json : option json)
    (w : world) (resp : response) :
  fst (redeem_item py_str request_json w) = Return resp →
  (status resp = 200 ∧ row_field "success" (body resp) = Some (JBool true))
  ∨ ((status resp = 400 ∨ status resp = 404)
     ∧ row_field "success" (body resp) = Some (JBool false)).
Proof.
  destruct (redeem_item_outcome py_str request_json w)
    as [(e & ->) | [-> | [(nm & c & _ & _ & ->) | (nm & c & _ & _ & ->)]]];
    cbn [fst]; intros Hresp; inversion Hresp; subst; cbn; auto.
Qed.

Lemma redeem_item_statuses_witness :
  fst (redeem_item (λ _, "") (Some (JObj [("name", JStr "Compost Bin")])) initial_world)
  = Return (mkResponse 400
              (JObj [("success", JBool false);
                     ("message", JStr "Not enough points to redeem Compost Bin.");
                     ("new_points", JInt 1250)]))
  ∧ ((400 = 200 ∧ Some (JBool false) = Some (JBool true))
     ∨ ((400 = 400 ∨ 400 = 404) ∧ Some (JBool false) = Some (JBool false))).
Proof.
  split; [reflexivity|].
  exact (redeem_item_statuses (λ _, "") (Some (JObj [("name", JStr "Compost Bin")]))
           initial_world _ eq_refl).
Defined.

(** Whenever the answer to a redemption carries 'new_points', with status
    200 or 400, its value is the balance now stored, and it is what
    [get_user] reports next. *)
Lemma redeem_item_new_points_is_balance (py_str : json → string)
    (request_json : option json) (w : world) (n : Z) :
  new_points_of (fst (redeem_item py_str request_json w)) = Some n →
  points (user_data (snd (redeem_item py_str request_json w))) = n
  ∧ fst (get_user (snd (redeem_item py_str request_json w))) =
      Return (mkResponse 200
                (JObj [("name", JStr (name (user_data w))); ("points", JInt n)])).
Proof.
  destruct (redeem_item_outcome py_str request_json w)
    as [(e & ->) | [-> | [(nm & c & _ & _ & ->) | (nm & c & _ & _ & ->)]]];
    cbn; intros Hn; inversion Hn; subst; split; reflexivity.
Qed.

Lemma redeem_item_new_points_is_balance_witness :
  new_points_of (fst (redeem_item (λ _, "")
                        (Some (JObj [("name", JStr "Compost Bin")])) initial_world))
    = Some 1250
  ∧ points (user_data (snd (redeem_item (λ _, "")
                              (Some (JObj [("name", JStr "Compost Bin")]))
                              initial_world))) = 1250
  ∧ fst (get_user (snd (redeem_item (λ _, "")
                          (Some (JObj [("name", JStr "Compost Bin")])) initial_world))) =
      Return (mkResponse 200 (JObj [("name", JStr "User"); ("points", JInt 1250)])).
Proof.
  split; [reflexivity|].
  exact (redeem_item_new_points_is_balance (λ _, "")
           (Some (JObj [("name", JStr "Compost Bin")])) initial_world 1250 eq_refl).
Defined.

Lemma serve_all_cons (py_str : json → string) (w : world) (r : request)
    (rs : list request) :
  serve_all py_str w (r :: rs) = serve_all py_str (serve py_str w r) rs.
Proof. reflexivity. Qed.

(** The same redemption served [n] times from a non-negative balance [p]
    succeeds while the balance covers the cost [c] and is refused from
    then on: the balance left is [p - c * min n (p / c)]. *)
Lemma redeem_item_repeated (py_str : json → string) (fields : list (string * json))
    (nm : string) (c : Z) (n : nat) (w : world) :
  dict_lookup fields "name" = Some (JStr nm) →
  marketplace_items_db !! nm = Some c →
  0 <= points (user_data w) →
  points (user_data
            (serve_all py_str w (replicate n (POST_redeem (Some (JObj fields))))))
  = points (user_data w) - c * Z.min (Z.of_nat n) (points (user_data w) / c).
Proof.
  intros Hname Hcost.
  pose proof (marketplace_items_db_positive nm c Hcost) as Hc.
  revert w. induction n as [|n IH]; intros w Hp.
  - cbn [replicate serve_all fold_left].
    assert (0 <= points (user_data w) / c) by (apply Z.div_pos; lia).
    rewrite Z.min_l by lia. lia.
  - cbn [replicate]. rewrite serve_all_cons.
    assert (serve py_str w (POST_redeem (Some (JObj fields))) =
            if (points (user_data w) >=? c)%Z
            then mkWorld (mkUser (name (user_data w)) (points (user_data w) - c))
                   (outbox w)
            else w) as ->.
    { unfold serve. cbn [view].
      rewrite (redeem_item_known py_str fields nm c w Hname Hcost).
      by destruct (points (user_data w) >=? c)%Z. }
    destruct (points (user_data w) >=? c)%Z eqn:Hge.
    + apply Z.geb_le in Hge.
      rewrite IH by (cbn; lia). cbn [user_data points].
      generalize dependent (points (user_data w)). intros p Hp Hge.
      assert (p / c = (p - c) / c + 1) as Hdiv.
      { replace p with ((p - c) + 1 * c) at 1 by lia. by rewrite Z.div_add by lia. }
      assert (0 <= (p - c) / c) by (apply Z.div_pos; lia).
      lia.
    + assert (points (user_data w) < c) as Hlt.
      { destruct (Z.ltb_spec (points (user_data w)) c) as [?|Hle]; [done|].
        apply Z.geb_le in Hle. congruence. }
      rewrite IH by exact Hp.
      rewrite Z.div_small by lia. lia.
Qed.

Lemma redeem_item_repeated_witness :
  points (user_data
            (serve_all (λ _, "") initial_world
               (replicate 5 (POST_redeem (Some (JObj [("name", JStr "Cloth Tote Bag")]))))))
  = 1250 - 500 * Z.min (Z.of_nat 5) (1250 / 500).
Proof.
  refine (redeem_item_repeated (λ _, "") [("name", JStr "Cloth Tote Bag")]
            "Cloth Tote Bag" 500 5 initial_world _ _ _);
    [reflexivity | reflexivity | simpl; lia].
Defined.

(** ** Outbound calls *)

Lemma keeps_world_ret {A : Type} (a : A) : keeps_world (mret a).
Proof. intros w. reflexivity. Qed.

Lemma keeps_world_raise {A : Type} (e : exn) : keeps_world (raise e : py A).
Proof. intros w. reflexivity. Qed.

Lemma keeps_world_bind {A B : Type} (m : py A) (f : A → py B) :
  keeps_world m → (∀ a, keeps_world (f a)) → keeps_world (m ≫= f).
Proof.
  intros Hm Hf w. unfold mbind, py_bind.
  specialize (Hm w). destruct (m w) as [[a|e] w1]; cbn in Hm |- *; subst w1.
  - apply Hf.
  - reflexivity.
Qed.

Lemma keeps_world_try {A : Type} (m : py A) (h : exn → py A) :
  keeps_world m → (∀ e, keeps_world (h e)) → keeps_world (try_except m h).
Proof.
  intros Hm Hh w. unfold try_except.
  specialize (Hm w). destruct (m w) as [[a|e] w1]; cbn in Hm |- *; subst w1.
  - reflexivity.
  - apply Hh.
Qed.

Lemma keeps_world_read_user_data : keeps_world read_user_data.
Proof. intros w. reflexivity. Qed.

Ltac keeps_world_step :=
  first
    [ apply keeps_world_ret
    | apply keeps_world_raise
    | apply keeps_world_read_user_data
    | apply keeps_world_bind; [|intros ?]
    | apply keeps_world_try; [|intros ?]
    | match goal with
      | |- keeps_world (if ?b then _ else _) => destruct b
      | |- keeps_world (match ?x with _ => _ end) => destruct x
      end ].

Ltac keeps_world_auto :=
  unfold flask_request_json, py_item, py_get, py_first, raise_for_status,
    response_json, response_status_code;
  repeat keeps_world_step.

Lemma sends_requests_post (remote : string → json → post_result) (url : string)
    (payload : json) :
  sends (mkCall url payload) (requests_post remote url payload).
Proof. intros w. unfold requests_post. by destruct (remote url payload). Qed.

Lemma sends_bind_ret {A B : Type} (c : call) (a : A) (f : A → py B) :
  sends c (f a) → sends c (mret a ≫= f).
Proof. intros Hf w. exact (Hf w). Qed.

Lemma sends_bind_then {A B : Type} (c : call) (m : py A) (f : A → py B) :
  sends c m → (∀ a, keeps_world (f a)) → sends c (m ≫= f).
Proof.
  intros Hm Hf w. unfold mbind, py_bind.
  specialize (Hm w). destruct (m w) as [[a|e] w1]; cbn in Hm |- *.
  - rewrite !(Hf a w1). exact Hm.
  - exact Hm.
Qed.

Lemma sends_try {A : Type} (c : call) (m : py A) (h : exn → py A) :
  sends c m → (∀ e, keeps_world (h e)) → sends c (try_except m h).
Proof.
  intros Hm Hh w. unfold try_except.
  specialize (Hm w). destruct (m w) as [[a|e] w1]; cbn in Hm |- *.
  - exact Hm.
  - rewrite !(Hh e w1). exact Hm.
Qed.

(** With a truthy 'item', [get_recommendation] makes exactly one outbound
    call, whatever the remote side does: to the fixed URL with the API key
    appended, with the prompt as its one text part; the prompt names the
    item twice, as the f-string renders it (a string as it is). *)
Lemma recommend_sends_one_call (py_str : json → string)
    (remote : string → json → post_result) (c : ascii) (k : string)
    (fields : list (string * json)) (item : json) (w : world) :
  dict_lookup fields "item" = Some item →
  truthy item = true →
  snd (get_recommendation py_str remote (Some (String c k)) (Some (JObj fields)) w)
  = mkWorld (user_data w)
      (outbox w
       ++ [mkCall
             ("https://generativelanguage.googleapis.com/v1beta/models/gemini-1.5-flash-latest:generateContent?key="
              ++ String c k)
             (JObj [("contents",
                     JArr [JObj [("parts",
                                  JArr [JObj [("text",
                                               JStr ("I want to replace '"
                                                     ++ match item with
                                                        | JStr s => s
                                                        | _ => py_str item
                                                        end
                                                     ++ "'. In a friendly and encouraging tone, suggest 1-3 common, eco-friendly alternatives. Keep the total response under 40 words. Start directly with the suggestion, for example: 'Instead of "
                                                     ++ match item with
                                                        | JStr s => s
                                                        | _ => py_str item
                                                        end
                                                     ++ ", you could try...'."))]])]])])]).
Proof.
  intros Hitem Htruthy. revert w.
  assert (("I want to replace '"
           ++ match item with JStr s => s | _ => py_str item end
           ++ "'. In a friendly and encouraging tone, suggest 1-3 common, eco-friendly alternatives. Keep the total response under 40 words. Start directly with the suggestion, for example: 'Instead of "
           ++ match item with JStr s => s | _ => py_str item end
           ++ ", you could try...'.")
          = recommend_prompt py_str item) as ->.
  { unfold recommend_prompt, fstring.
    generalize (match item with JStr s => s | _ => py_str item end). intros shown.
    reflexivity. }
  change (sends (mkCall (api_url (String c k))
                   (text_payload (recommend_prompt py_str item)))
            (get_recommendation py_str remote (Some (String c k))
               (Some (JObj fields)))).
  unfold get_recommendation. apply sends_try.
  - unfold flask_request_json. apply sends_bind_ret.
    unfold py_item at 1. rewrite Hitem. apply sends_bind_ret.
    rewrite Htruthy. cbn [negb].
    apply sends_bind_then; [apply sends_requests_post|].
    intros resp. keeps_world_auto.
  - intros e. keeps_world_auto.
Qed.

Lemma calls_at_most_once_keeps {A : Type} (m : py A) :
  keeps_world m → calls_at_most_once m.
Proof. intros Hm w. left. by rewrite Hm. Qed.

Lemma calls_at_most_once_sends {A : Type} (c : call) (m : py A) :
  sends c m → calls_at_most_once m.
Proof. intros Hm w. right. exists c. by rewrite Hm. Qed.

Lemma calls_at_most_once_after {A B : Type} (m : py A) (f : A → py B) :
  keeps_world m → (∀ a, calls_at_most_once (f a)) → calls_at_most_once (m ≫= f).
Proof.
  intros Hm Hf w. unfold mbind, py_bind.
  specialize (Hm w). destruct (m w) as [[a|e] w1]; cbn in Hm |- *; subst w1.
  - apply Hf.
  - by left.
Qed.

Lemma calls_at_most_once_then {A B : Type} (m : py A) (f : A → py B) :
  calls_at_most_once m → (∀ a, keeps_world (f a)) → calls_at_most_once (m ≫= f).
Proof.
  intros Hm Hf w. unfold mbind, py_bind.
  specialize (Hm w). destruct (m w) as [[a|e] w1]; cbn [snd] in Hm |- *.
  - rewrite !(Hf a w1). exact Hm.
  - exact Hm.
Qed.

Lemma calls_at_most_once_try {A : Type} (m : py A) (h : exn → py A) :
  calls_at_most_once m → (∀ e, keeps_world (h e)) →
  calls_at_most_once (try_except m h).
Proof.
  intros Hm Hh w. unfold try_except.
  specialize (Hm w). destruct (m w) as [[a|e] w1]; cbn [snd] in Hm |- *.
  - exact Hm.
  - rewrite !(Hh e w1). exact Hm.
Qed.

Lemma calls_at_most_once_get_recommendation (py_str : json → string)
    (remote : string → json → post_result) (api_key : option string)
    (request_json : option json) :
  calls_at_most_once (get_recommendation py_str remote api_key request_json).
Proof.
  unfold get_recommendation.
  destruct api_key as [[|c k]|];
    try (apply calls_at_most_once_keeps; apply keeps_world_ret).
  apply calls_at_most_once_try; [|intros e; keeps_world_auto].
  apply calls_at_most_once_after; [keeps_world_auto|intros req].
  apply calls_at_most_once_after; [keeps_world_auto|intros item].
  destruct (negb (truthy item)).
  - apply calls_at_most_once_keeps, keeps_world_ret.
  - apply calls_at_most_once_then; [|intros resp; keeps_world_auto].
    eapply calls_at_most_once_sends, sends_requests_post.
Qed.

Lemma calls_at_most_once_scan_image (remote : string → json → post_result)
    (api_key : option string) (request_json : option json) :
  calls_at_most_once (scan_image remote api_key request_json).
Proof.
  unfold scan_image.
  destruct api_key as [[|c k]|];
    try (apply calls_at_most_once_keeps; apply keeps_world_ret).
  apply calls_at_most_once_try; [|intros e; keeps_world_auto].
  apply calls_at_most_once_after; [keeps_world_auto|intros req].
  apply calls_at_most_once_after; [keeps_world_auto|intros image_data].
  apply calls_at_most_once_then; [|intros resp; keeps_world_auto].
  eapply calls_at_most_once_sends, sends_requests_post.
Qed.

(** ** What a request can do to the state *)

Lemma serve_ledger (py_str : json → string) (w : world) (r : request) :
  name (user_data (serve py_str w r)) = name (user_data w)
  ∧ points (user_data (serve py_str w r)) <= points (user_data w).
Proof.
  unfold serve. destruct r; cbn [view];
    try (split; [reflexivity | apply Z.eq_le_incl; reflexivity]).
  - destruct (redeem_item_world py_str request_json w)
      as [-> | (nm & c & Hcost & _ & ->)]; [split; [reflexivity | lia]|].
    apply marketplace_items_db_positive in Hcost. cbn. split; [reflexivity | lia].
  - rewrite keeps_ledger_get_recommendation. split; [reflexivity | lia].
  - rewrite keeps_ledger_scan_image. split; [reflexivity | lia].
Qed.

Lemma serve_outbox (py_str : json → string) (w : world) (r : request) :
  outbox (serve py_str w r) = outbox w
  ∨ (is_proxy r = true ∧ ∃ c, outbox (serve py_str w r) = (outbox w ++ [c])%list).
Proof.
  unfold serve. destruct r; cbn [view is_proxy]; try (left; reflexivity).
  - left. destruct (redeem_item_world py_str request_json w)
      as [-> | (nm & c & _ & _ & ->)]; reflexivity.
  - destruct (calls_at_most_once_get_recommendation py_str remote api_key
                request_json w) as [H|H]; [by left | by right].
  - destruct (calls_at_most_once_scan_image remote api_key request_json w)
      as [H|H]; [by left | by right].
Qed.

Lemma serve_all_ledger (py_str : json → string) (rs : list request) (w : world) :
  name (user_data (serve_all py_str w rs)) = name (user_data w)
  ∧ points (user_data (serve_all py_str w rs)) <= points (user_data w).
Proof.
  revert w. induction rs as [|r rs IH]; intros w.
  - cbn. split; [reflexivity | lia].
  - rewrite serve_all_cons.
    destruct (IH (serve py_str w r)) as [Hn Hp].
    destruct (serve_ledger py_str w r) as [Hn' Hp'].
    split; [congruence | lia].
Qed.

(** Over any sequence of requests the user's name is never changed and
    the points never go up: nothing in the application credits points. *)
Lemma ledger_only_decreases (py_str : json → string) (rs : list request) (w : world) :
  name (user_data (serve_all py_str w rs)) = name (user_data w)
  ∧ points (user_data (serve_all py_str w rs)) <= points (user_data w).
Proof. apply serve_all_ledger. Qed.

(** Over any sequence of requests the log of outbound calls only grows at
    its end, and by at most one call for each request to a proxy route:
    no call is repeated and no other route calls out. *)
Lemma outbound_calls_bounded (py_str : json → string) (rs : list request) (w : world) :
  ∃ cs, outbox (serve_all py_str w rs) = (outbox w ++ cs)%list
        ∧ (length cs <= length (List.filter is_proxy rs))%nat.
Proof.
  revert w. induction rs as [|r rs IH]; intros w.
  - exists []. cbn. split; [by rewrite app_nil_r | lia].
  - rewrite serve_all_cons. destruct (IH (serve py_str w r)) as (cs & -> & Hlen).
    destruct (serve_outbox py_str w r) as [-> | (Hproxy & c & ->)].
    + exists cs. split; [reflexivity|]. cbn [List.filter].
      destruct (is_proxy r); cbn [length]; lia.
    + exists (c :: cs). split; [by rewrite <- app_assoc|].
      cbn [List.filter]. rewrite Hproxy. cbn [length]. lia.
Qed.

(** In every state reached from the initial one the leaderboard is in
    order: the points of its rows, read top to bottom, never go up, the
    row "You" staying last below the 1500 points of rank 6. *)
Lemma leaderboard_sorted_when_reachable (py_str : json → string) (rs : list request) :
  ∃ ps, map (row_field "points")
          (rows_of (fst (get_leaderboard (serve_all py_str initial_world rs))))
        = map (λ n, Some (JInt n)) ps
        ∧ StronglySorted Z.ge ps.
Proof.
  destruct (serve_all_ledger py_str rs initial_world) as [_ Hle].
  cbn [initial_world initial_user_data user_data points] in Hle.
  exists [5430; 5120; 4980; 3200; 2150; 1500;
          points (user_data (serve_all py_str initial_world rs))].
  split; [reflexivity|].
  repeat (constructor; [|repeat (constructor; [lia|]); try constructor]).
  constructor.
Qed.

(** ** Answers served one after another *)

Lemma run_state (py_str : json → string) (rs : list request) (w : world) :
  snd (run py_str w rs) = serve_all py_str w rs.
Proof.
  revert w. induction rs as [|r rs IH]; intros w; [reflexivity|].
  rewrite serve_all_cons, <- IH. cbn [run]. unfold serve.
  destruct (view py_str r w) as [a w1]. cbn [snd].
  by destruct (run py_str w1 rs).
Qed.

Lemma view_new_points (py_str : json → string) (r : request) (w : world) :
  match r with
  | POST_redeem _ =>
      default (points (user_data w)) (new_points_of (fst (view py_str r w)))
  | _ => points (user_data w)
  end = points (user_data (snd (view py_str r w))).
Proof.
  destruct r; cbn [view]; try reflexivity.
  - destruct (redeem_item_outcome py_str request_json w)
      as [(e & ->) | [-> | [(nm & c & _ & _ & ->) | (nm & c & _ & _ & ->)]]];
      reflexivity.
  - by rewrite keeps_ledger_get_recommendation.
  - by rewrite keeps_ledger_scan_image.
Qed.

(** A client that starts from the balance and takes over 'new_points' from
    each answer to a redemption that carries it always holds the stored
    balance, whatever requests are served in between and whatever the
    other routes answer. *)
Lemma client_tracks_balance (py_str : json → string) (rs : list request) (w : world) :
  track (points (user_data w)) (fst (run py_str w rs))
  = points (user_data (serve_all py_str w rs)).
Proof.
  rewrite <- run_state. revert w. induction rs as [|r rs IH]; intros w; [reflexivity|].
  cbn [run]. pose proof (view_new_points py_str r w) as Hstep.
  destruct (view py_str r w) as [a w1]. cbn [fst snd] in Hstep.
  specialize (IH w1). destruct (run py_str w1 rs) as [tr w2].
  cbn [fst snd] in IH |- *. unfold track in IH |- *. cbn [fold_left fst snd].
  rewrite Hstep. exact IH.
Qed.

(** ** The statuses of the proxy views *)

Lemma returns_with_ret (S : Z → Prop) (resp : response) :
  S (status resp) → returns_with S (mret resp).
Proof. intros HS w r Hr. inversion Hr. by subst. Qed.

Lemma returns_with_raise (S : Z → Prop) (e : exn) : returns_with S (raise e).
Proof. intros w r Hr. discriminate. Qed.

Lemma returns_with_bind {A : Type} (S : Z → Prop) (m : py A) (f : A → py response) :
  (∀ a, returns_with S (f a)) → returns_with S (m ≫= f).
Proof.
  intros Hf w r. unfold mbind, py_bind.
  destruct (m w) as [[a|e] w1]; [apply Hf | discriminate].
Qed.

Lemma returns_with_try (S : Z → Prop) (m : py response) (h : exn → py response) :
  returns_with S m → (∀ e, returns_with S (h e)) → returns_with S (try_except m h).
Proof.
  intros Hm Hh w r. unfold try_except.
  specialize (Hm w). destruct (m w) as [[a|e] w1]; cbn [fst] in Hm |- *.
  - exact (Hm r).
  - apply Hh.
Qed.

Lemma answers_with_ret (S : Z → Prop) (resp : response) :
  S (status resp) → answers_with S (mret resp).
Proof. intros HS w. by exists resp. Qed.

Lemma answers_with_try (S : Z → Prop) (m : py response) (h : exn → py response) :
  returns_with S m → (∀ e, answers_with S (h e)) → answers_with S (try_except m h).
Proof.
  intros Hm Hh w. unfold try_except.
  specialize (Hm w). destruct (m w) as [[a|e] w1]; cbn [fst] in Hm |- *.
  - exists a. split; [reflexivity | by apply Hm].
  - apply Hh.
Qed.

Ltac returns_with_step :=
  first
    [ apply returns_with_ret; cbn; tauto
    | apply returns_with_raise
    | apply returns_with_bind; intros ?
    | apply returns_with_try; [|intros ?]
    | match goal with
      | |- returns_with _ (if ?b then _ else _) => destruct b
      | |- returns_with _ (match ?x with _ => _ end) => destruct x
      end ].

Ltac returns_with_auto := repeat returns_with_step.

(** No exception leaves [get_recommendation]: for every API key, request
    body and remote behaviour it returns a response, with status 200, 400
    or 500. *)
Lemma get_recommendation_always_answers (py_str : json → string)
    (remote : string → json → post_result) (api_key : option string)
    (request_json : option json) :
  answers_with (λ s, s = 200 ∨ s = 400 ∨ s = 500)
    (get_recommendation py_str remote api_key request_json).
Proof.
  unfold get_recommendation.
  destruct api_key as [[|c k]|]; try (apply answers_with_ret; cbn; tauto).
  apply answers_with_try.
  - returns_with_auto.
  - intros e. destruct e; apply answers_with_ret; cbn; tauto.
Qed.

(** [scan_image] returns only the statuses 200, 400 and 500.  The one
    exception that can leave it is the [AttributeError] of its first
    handler, and only after the outbound call was made. *)
Lemma scan_image_outcomes (remote : string → json → post_result)
    (api_key : option string) (request_json : option json) (w : world) :
  (∀ resp, fst (scan_image remote api_key request_json w) = Return resp →
           status resp = 200 ∨ status resp = 400 ∨ status resp = 500)
  ∧ (∀ e, fst (scan_image remote api_key request_json w) = Raise e →
          e = AttributeError
          ∧ ∃ c, outbox (snd (scan_image remote api_key request_json w))
                 = (outbox w ++ [c])%list).
Proof.
  split.
  - revert w.
    change (returns_with (λ s, s = 200 ∨ s = 400 ∨ s = 500)
              (scan_image remote api_key request_json)).
    unfold scan_image, response_status_code.
    destruct api_key as [[|c k]|]; returns_with_auto.
  - intros e.
    destruct api_key as [[|c k]|]; try discriminate.
    destruct request_json as [req|]; [|discriminate].
    destruct req as [ | | | | | |fields]; try discriminate.
    destruct (dict_lookup fields "imageData") as [v|] eqn:Himg.
    2:{ by rewrite scan_image_missing. }
    unfold scan_image, flask_request_json, py_item, requests_post, raise_for_status,
      response_json, response_status_code. py_unfold.
    rewrite Himg.
    destruct (remote _ _) as [[code|]|[code [answer|]]]; cbn [status_code decoded];
      try destruct ((400 <=? code) && (code <? 600))%Z; cbn [fst snd outbox];
      intros He; inversion He; subst; split; eauto.
Qed.

(** ** Bodies and answers of the wrong shape *)

(** With the API key configured, a request whose body is not a JSON
    object (no JSON at all, or a list, a string, a number, ...) is
    answered by both proxy views with status 500 and "An internal server
    error occurred.", not with status 400, and no outbound call is made. *)
Lemma proxy_body_not_object (py_str : json → string)
    (remote : string → json → post_result) (c : ascii) (k : string)
    (request_json : option json) (w : world) :
  (∀ fields, request_json ≠ Some (JObj fields)) →
  get_recommendation py_str remote (Some (String c k)) request_json w =
    (Return (mkResponse 500 (error_body "An internal server error occurred.")), w)
  ∧ scan_image remote (Some (String c k)) request_json w =
    (Return (mkResponse 500 (error_body "An internal server error occurred.")), w).
Proof.
  intros Hshape.
  destruct request_json as [req|]; [|split; reflexivity].
  destruct req as [ | | | | | |fields]; try (split; reflexivity).
  by destruct (Hshape fields).
Qed.

Lemma proxy_body_not_object_witness :
  (∀ fields, Some (JArr [JStr "plastic straw"]) ≠ Some (JObj fields))
  ∧ get_recommendation (λ _, "") unreachable (Some "k")
      (Some (JArr [JStr "plastic straw"])) initial_world =
      (Return (mkResponse 500 (error_body "An internal server error occurred.")),
       initial_world)
  ∧ scan_image unreachable (Some "k") (Some (JArr [JStr "plastic straw"]))
      initial_world =
      (Return (mkResponse 500 (error_body "An internal server error occurred.")),
       initial_world).
Proof.
  assert (∀ fields, Some (JArr [JStr "plastic straw"]) ≠ Some (JObj fields)) as H
    by (intros fields; discriminate).
  split; [exact H|].
  exact (proxy_body_not_object (λ _, "") unreachable "k"%char ""
           (Some (JArr [JStr "plastic straw"])) initial_world H).
Defined.

(** When the remote call succeeds and the answer has the expected shape,
    the recommendation returned is the 'text' of the first part of the
    first candidate, whatever else the answer holds. *)
Lemma recommend_first_text (py_str : json → string)
    (remote : string → json → post_result) (c : ascii) (k : string)
    (fields top cand content part : list (string * json)) (more more' : list json)
    (item text : json) (r : Response) (w : world) :
  dict_lookup fields "item" = Some item →
  truthy item = true →
  remote (api_url (String c k)) (text_payload (recommend_prompt py_str item))
    = PostReturns r →
  ¬ (400 <= status_code r < 600) →
  decoded r = Some (JObj top) →
  dict_lookup top "candidates" = Some (JArr (JObj cand :: more)) →
  dict_lookup cand "content" = Some (JObj content) →
  dict_lookup content "parts" = Some (JArr (JObj part :: more')) →
  dict_lookup part "text" = Some text →
  fst (get_recommendation py_str remote (Some (String c k)) (Some (JObj fields)) w) =
    Return (mkResponse 200 (JObj [("recommendation", text)])).
Proof.
  intros Hitem Htruthy Hremote Hstatus Hdecoded Hcands Hcontent Hparts Htext.
  assert (((400 <=? status_code r) && (status_code r <? 600))%Z = false) as Hrange.
  { apply not_true_is_false. intros H. apply andb_prop in H as [H1 H2].
    apply Z.leb_le in H1. apply Z.ltb_lt in H2. lia. }
  unfold get_recommendation, flask_request_json, py_item, requests_post,
    raise_for_status, response_json. py_unfold.
  rewrite Hitem, Htruthy. cbn [negb]. rewrite Hremote, Hrange, Hdecoded.
  unfold py_get, py_first. py_unfold.
  rewrite Hcands. cbn. rewrite Hcontent. cbn. rewrite Hparts. cbn.
  rewrite Htext. reflexivity.
Qed.

Lemma recommend_first_text_witness :
  fst (get_recommendation (λ _, "")
         (answers
            (JObj [("candidates",
                    JArr [JObj [("content",
                                 JObj [("parts",
                                        JArr [JObj [("text", JStr "Try a steel straw.")];
                                              JObj [("text", JStr "second")]])])];
                          JObj []]);
                   ("usageMetadata", JObj [])]))
         (Some "k") (Some (JObj [("item", JStr "plastic straw")])) initial_world) =
    Return (mkResponse 200 (JObj [("recommendation", JStr "Try a steel straw.")])).
Proof.
  refine (recommend_first_text (λ _, "") _ "k"%char "" [("item", JStr "plastic straw")]
            _ _ _ _ _ _ (JStr "plastic straw") _ (mkRemote 200 _) initial_world
            _ _ _ _ _ _ _ _ _);
    [reflexivity | reflexivity | reflexivity | simpl; lia | reflexivity
    | reflexivity | reflexivity | reflexivity | reflexivity].
Defined.

(** When the remote call succeeds and the answer is not a JSON object,
    [get_recommendation] answers status 500 with "An internal server error
    occurred.". *)
Lemma recommend_answer_not_object (py_str : json → string)
    (remote : string → json → post_result) (c : ascii) (k : string)
    (fields : list (string * json)) (item ai : json) (r : Response) (w : world) :
  dict_lookup fields "item" = Some item →
  truthy item = true →
  remote (api_url (String c k)) (text_payload (recommend_prompt py_str item))
    = PostReturns r →
  ¬ (400 <= status_code r < 600) →
  decoded r = Some ai →
  (∀ kvs, ai ≠ JObj kvs) →
  fst (get_recommendation py_str remote (Some (String c k)) (Some (JObj fields)) w) =
    Return (mkResponse 500 (error_body "An internal server error occurred.")).
Proof.
  intros Hitem Htruthy Hremote Hstatus Hdecoded Hshape.
  assert (((400 <=? status_code r) && (status_code r <? 600))%Z = false) as Hrange.
  { apply not_true_is_false. intros H. apply andb_prop in H as [H1 H2].
    apply Z.leb_le in H1. apply Z.ltb_lt in H2. lia. }
  unfold get_recommendation, flask_request_json, py_item, requests_post,
    raise_for_status, response_json. py_unfold.
  rewrite Hitem, Htruthy. cbn [negb]. rewrite Hremote, Hrange, Hdecoded.
  unfold py_get. py_unfold.
  destruct ai as [ | | | | | |kvs]; try reflexivity.
  by destruct (Hshape kvs).
Qed.

Lemma recommend_answer_not_object_witness :
  fst (get_recommendation (λ _, "") (answers (JArr [JStr "Try a steel straw."]))
         (Some "k") (Some (JObj [("item", JStr "plastic straw")])) initial_world) =
    Return (mkResponse 500 (error_body "An internal server error occurred.")).
Proof.
  refine (recommend_answer_not_object (λ _, "") _ "k"%char ""
            [("item", JStr "plastic straw")] (JStr "plastic straw")
            (JArr [JStr "Try a steel straw."]) (mkRemote 200 _) initial_world
            _ _ _ _ _ _);
    [reflexivity | reflexivity | reflexivity | simpl; lia | reflexivity
    | intros kvs; discriminate].
Defined.

(** When the remote call succeeds, [scan_image] returns the decoded answer
    of the remote service as it is, with status 200, after the one
    outbound call: to the fixed URL with the API key appended, with the
    fixed instruction as the text part and the image data as image/jpeg
    inline data. *)
Lemma scan_image_passes_answer_through (remote : string → json → post_result)
    (c : ascii) (k : string) (fields : list (string * json)) (image_data answer : json)
    (r : Response) (w : world) :
  dict_lookup fields "imageData" = Some image_data →
  remote
    ("https://generativelanguage.googleapis.com/v1beta/models/gemini-1.5-flash-latest:generateContent?key="
     ++ String c k)
    (JObj [("contents",
           JArr [JObj [("parts",
                        JArr [JObj [("text", JStr "Analyze this image and identify the main waste item. Classify it into one of these three categories: Biodegradable, Recyclable, or Hazardous. Respond with only one of these three words, followed by a colon and the name of the item. For example: 'Recyclable: Plastic Bottle'.")];
                              JObj [("inlineData",
                                     JObj [("mimeType", JStr "image/jpeg");
                                           ("data", image_data)])]])]])])
    = PostReturns r →
  ¬ (400 <= status_code r < 600) →
  decoded r = Some answer →
  scan_image remote (Some (String c k)) (Some (JObj fields)) w =
    (Return (mkResponse 200 answer),
     mkWorld (user_data w)
       (outbox w
        ++ [mkCall
              ("https://generativelanguage.googleapis.com/v1beta/models/gemini-1.5-flash-latest:generateContent?key="
               ++ String c k)
              (JObj [("contents",
                     JArr [JObj [("parts",
                                  JArr [JObj [("text", JStr "Analyze this image and identify the main waste item. Classify it into one of these three categories: Biodegradable, Recyclable, or Hazardous. Respond with only one of these three words, followed by a colon and the name of the item. For example: 'Recyclable: Plastic Bottle'.")];
                                        JObj [("inlineData",
                                               JObj [("mimeType", JStr "image/jpeg");
                                                     ("data", image_data)])]])]])])])).
Proof.
  intros Himg Hremote Hstatus Hdecoded.
  assert (((400 <=? status_code r) && (status_code r <? 600))%Z = false) as Hrange.
  { apply not_true_is_false. intros H. apply andb_prop in H as [H1 H2].
    apply Z.leb_le in H1. apply Z.ltb_lt in H2. lia. }
  unfold scan_image, flask_request_json, py_item, requests_post, raise_for_status,
    response_json, api_url, scan_payload, scan_instruction. py_unfold.
  rewrite Himg, Hremote, Hrange, Hdecoded. reflexivity.
Qed.

Lemma scan_image_passes_answer_through_witness :
  scan_image
    (λ url payload,
       if String.eqb url
            "https://generativelanguage.googleapis.com/v1beta/models/gemini-1.5-flash-latest:generateContent?key=k"
       then PostReturns (mkRemote 200 (Some (JObj [("candidates", JArr [])])))
       else PostRaises None)
    (Some "k") (Some (JObj [("imageData", JStr "aGk=")])) initial_world =
    (Return (mkResponse 200 (JObj [("candidates", JArr [])])),
     mkWorld initial_user_data
       [mkCall
          "https://generativelanguage.googleapis.com/v1beta/models/gemini-1.5-flash-latest:generateContent?key=k"
          (JObj [("contents",
                 JArr [JObj [("parts",
                              JArr [JObj [("text", JStr "Analyze this image and identify the main waste item. Classify it into one of these three categories: Biodegradable, Recyclable, or Hazardous. Respond with only one of these three words, followed by a colon and the name of the item. For example: 'Recyclable: Plastic Bottle'.")];
                                    JObj [("inlineData",
                                           JObj [("mimeType", JStr "image/jpeg");
                                                 ("data", JStr "aGk=")])]])]])])]).
Proof.
  refine (scan_image_passes_answer_through _ "k"%char "" [("imageData", JStr "aGk=")]
            (JStr "aGk=") (JObj [("candidates", JArr [])]) (mkRemote 200 _)
            initial_world _ _ _ _);
    [reflexivity | reflexivity | simpl; lia | reflexivity].
Defined.

Lemma recommend_sends_one_call_witness :
  snd (get_recommendation (λ _, "") unreachable (Some "k")
         (Some (JObj [("item", JStr "plastic straw")])) initial_world)
  = mkWorld initial_user_data
      [mkCall
         "https://generativelanguage.googleapis.com/v1beta/models/gemini-1.5-flash-latest:generateContent?key=k"
         (JObj [("contents",
                 JArr [JObj [("parts",
                              JArr [JObj [("text",
                                           JStr "I want to replace 'plastic straw'. In a friendly and encouraging tone, suggest 1-3 common, eco-friendly alternatives. Keep the total response under 40 words. Start directly with the suggestion, for example: 'Instead of plastic straw, you could try...'.")]])]])])].
Proof.
  refine (recommend_sends_one_call (λ _, "") unreachable "k"%char ""
            [("item", JStr "plastic straw")] (JStr "plastic straw") initial_world _ _);
    reflexivity.
Defined.

(** ** The read views *)

(** The four read views never raise, answer status 200 and leave the
    state as it was, in every state. *)
Lemma read_views_leave_state (py_str : json → string) (r : request) (w : world) :
  r = GET_user ∨ r = GET_leaderboard ∨ r = GET_marketplace ∨ r = GET_news →
  status_of (fst (view py_str r w)) = Some 200
  ∧ serve py_str w r = w.
Proof. intros [-> | [-> | [-> | ->]]]; split; reflexivity. Qed.

Lemma read_views_leave_state_witness :
  status_of (fst (view (λ _, "") GET_news initial_world)) = Some 200
  ∧ serve (λ _, "") initial_world GET_news = initial_world.
Proof.
  refine (read_views_leave_state (λ _, "") GET_news initial_world _). auto.
Defined.

(** The two views that show the balance agree in every state: the points
    of the leaderboard row "You" are the points [get_user] returns. *)
Lemma leaderboard_agrees_with_get_user (w : world) :
  match fst (get_user w) with
  | Return resp =>
      map (row_field "points")
        (List.filter is_you (rows_of (fst (get_leaderboard w))))
      = [row_field "points" (body resp)]
  | Raise _ => False
  end.
Proof. reflexivity. Qed.

Lemma redeem_item_scalar_name_witness :
  redeem_item (λ _, "") (Some (JObj [("name", JInt 500)])) initial_world =
    (Return (mkResponse 404
               (JObj [("success", JBool false); ("message", JStr "Item not found.")])),
     initial_world).
Proof.
  refine (redeem_item_scalar_name (λ _, "") [("name", JInt 500)] (JInt 500)
            initial_world _ _);
    [reflexivity | right; left; eexists; reflexivity].
Defined.
